(** * simplemli: a Message Length Indicator encoder/decoder

    Shallow embedding of [mli.go] (package [simplemli]) and of the parts of
    the Go standard library it calls ([encoding/binary], [encoding/hex],
    [strconv], [fmt], [bytes]), followed by the properties of [Encode] and
    [Decode].

    Conventions.
    - A Go [[]byte] and a Go [string] are both sequences of bytes: they are
      [list byte] here, so [unsafeByteToStr] is the identity.
    - A Go [int] is a 64-bit two's complement integer (the repository is
      built and tested on amd64); it is a [Z] with the wrap-around of
      every addition and subtraction written out ([int_wrap]).
    - A Go function returning [(v, err)] returns a pair [(v, option error)]
      here, [None] standing for [nil].
    - An index or slice expression out of range is a run-time panic: the
      primitives that index return in [run], whose second constructor is
      the panic.
    - [Decode] is given the slice its pointer argument points to. *)

From Stdlib Require Import ZArith List String Bool Lia.
From Stdlib Require Strings.Byte.
From Stdlib Require Import Init.Byte.
Import ListNotations.
Open Scope Z_scope.

(** ** Bytes and machine integers *)

Definition byte_to_Z (b : byte) : Z := Z.of_N (Byte.to_N b).

(** The conversion [byte(v)] of an integer: the low eight bits. *)
Definition byte_of_Z (v : Z) : byte :=
  match Byte.of_N (Z.to_N (v mod 256)) with
  | Some b => b
  | None => x00
  end.

Definition max_int : Z := 2 ^ 63 - 1.
Definition min_int : Z := - 2 ^ 63.

(** Two's complement wrap-around of a 64-bit [int]. *)
Definition int_wrap (z : Z) : Z := (z + 2 ^ 63) mod 2 ^ 64 - 2 ^ 63.

Definition int_add (a b : Z) : Z := int_wrap (a + b).
Definition int_sub (a b : Z) : Z := int_wrap (a - b).

(** The conversions [uint16(n)] and [uint32(n)] of an [int]. *)
Definition uint16 (n : Z) : Z := n mod 2 ^ 16.
Definition uint32 (n : Z) : Z := n mod 2 ^ 32.

(** The conversion [int(u)] of an unsigned 16- or 32-bit value. *)
Definition int_of_uint (u : Z) : Z := int_wrap u.

(** ** Computations that may panic *)

Inductive run (A : Type) : Type :=
| Done (a : A)
| Panic.
Arguments Done {A} a.
Arguments Panic {A}.

Definition bind {A B : Type} (c : run A) (k : A -> run B) : run B :=
  match c with
  | Done a => k a
  | Panic => Panic
  end.

Notation "x <- c ;; k" := (bind c (fun x => k))
  (at level 61, c at next level, right associativity).

(** [make([]byte, n)]: [n] zero bytes. *)
Definition make (n : nat) : list byte := repeat x00 n.

(** The slice expression [b[lo:hi]] of a slice whose capacity is its
    length; it panics unless [lo <= hi <= len(b)]. *)
Definition slice (b : list byte) (lo hi : nat) : run (list byte) :=
  if (Nat.leb lo hi && Nat.leb hi (List.length b))%bool
  then Done (firstn (hi - lo) (skipn lo b))
  else Panic.

(** ** encoding/binary: [binary.BigEndian] *)

Module binary.

Definition Uint16 (b : list byte) : run Z :=
  match b with
  | b0 :: b1 :: _ =>
      Done (Z.lor (byte_to_Z b1) (Z.shiftl (byte_to_Z b0) 8))
  | _ => Panic
  end.

Definition Uint32 (b : list byte) : run Z :=
  match b with
  | b0 :: b1 :: b2 :: b3 :: _ =>
      Done (Z.lor (Z.lor (Z.lor (byte_to_Z b3) (Z.shiftl (byte_to_Z b2) 8))
                         (Z.shiftl (byte_to_Z b1) 16))
                  (Z.shiftl (byte_to_Z b0) 24))
  | _ => Panic
  end.

Definition PutUint16 (b : list byte) (v : Z) : run (list byte) :=
  match b with
  | _ :: _ :: rest =>
      Done (byte_of_Z (Z.shiftr v 8) :: byte_of_Z v :: rest)
  | _ => Panic
  end.

Definition PutUint32 (b : list byte) (v : Z) : run (list byte) :=
  match b with
  | _ :: _ :: _ :: _ :: rest =>
      Done (byte_of_Z (Z.shiftr v 24) :: byte_of_Z (Z.shiftr v 16)
            :: byte_of_Z (Z.shiftr v 8) :: byte_of_Z v :: rest)
  | _ => Panic
  end.

End binary.

(** ** encoding/hex *)

Module hex.

Inductive error : Type :=
| InvalidByteError (c : byte)
| ErrLength.

Definition hextable : list byte := list_byte_of_string "0123456789abcdef".

Definition hexchar (table : list byte) (i : Z) : byte :=
  nth (Z.to_nat i) table x00.

(** [hex.EncodeToString]: two lower-case hexadecimal characters a byte. *)
Fixpoint EncodeToString (src : list byte) : list byte :=
  match src with
  | [] => []
  | v :: rest =>
      hexchar hextable (Z.shiftr (byte_to_Z v) 4)
        :: hexchar hextable (Z.land (byte_to_Z v) 15)
        :: EncodeToString rest
  end.

(** [reverseHexTable]: the value of a hexadecimal character, 255 for any
    other byte. *)
Definition reverseHexTable (c : byte) : Z :=
  let z := byte_to_Z c in
  if (48 <=? z) && (z <=? 57) then z - 48
  else if (97 <=? z) && (z <=? 102) then z - 97 + 10
  else if (65 <=? z) && (z <=? 70) then z - 65 + 10
  else 255.

(** [hex.Decode] then [src[:n]]: the bytes decoded before the first
    error, and that error. *)
Fixpoint DecodeString (src : list byte) : list byte * option error :=
  match src with
  | [] => ([], None)
  | [p] =>
      if 15 <? reverseHexTable p then ([], Some (InvalidByteError p))
      else ([], Some ErrLength)
  | p :: q :: rest =>
      let a := reverseHexTable p in
      let b := reverseHexTable q in
      if 15 <? a then ([], Some (InvalidByteError p))
      else if 15 <? b then ([], Some (InvalidByteError q))
      else
        let '(dst, err) := DecodeString rest in
        (byte_of_Z (Z.lor (Z.shiftl a 4) b) :: dst, err)
  end.

End hex.

(** ** strconv *)

Module strconv.

Inductive errkind : Type := ErrSyntax | ErrRange.

(** A [*NumError]: the failing function, the input and the reason. *)
Record NumError : Type := mkNumError
  { Func : string; Num : list byte; Err : errkind }.

Definition syntaxError (fn : string) (s : list byte) : NumError :=
  mkNumError fn s ErrSyntax.
Definition rangeError (fn : string) (s : list byte) : NumError :=
  mkNumError fn s ErrRange.

Definition is_sign (c : byte) : bool :=
  Byte.eqb c "-"%byte || Byte.eqb c "+"%byte.

(** The loop of the fast path of [Atoi]: [ch -= '0'] on a byte, then
    [n = n*10 + int(ch)]; [None] at the first [ch > 9]. *)
Fixpoint atoi_loop (s : list byte) (n : Z) : option Z :=
  match s with
  | [] => Some n
  | c :: rest =>
      let ch := (byte_to_Z c - 48) mod 256 in
      if 9 <? ch then None else atoi_loop rest (n * 10 + ch)
  end.

(** The loop of [ParseUint(s, 10, 64)]: a character that is not a digit
    is a syntax error, an overflow of 64 bits a range error, whichever
    comes first. *)
Fixpoint parseuint_loop (s : list byte) (n : Z) : Z * option errkind :=
  match s with
  | [] => (n, None)
  | c :: rest =>
      let z := byte_to_Z c in
      if (48 <=? z) && (z <=? 57) then
        let d := z - 48 in
        if (2 ^ 64 - 1) / 10 + 1 <=? n then (2 ^ 64 - 1, Some ErrRange)
        else
          let n1 := n * 10 + d in
          if 2 ^ 64 - 1 <? n1 then (2 ^ 64 - 1, Some ErrRange)
          else parseuint_loop rest n1
      else (0, Some ErrSyntax)
  end.

Definition ParseUint (s : list byte) : Z * option errkind :=
  match s with
  | [] => (0, Some ErrSyntax)
  | _ => parseuint_loop s 0
  end.

(** [ParseInt(s, 10, 0)]. *)
Definition ParseInt (s : list byte) : Z * option NumError :=
  match s with
  | [] => (0, Some (syntaxError "ParseInt" s))
  | c :: rest =>
      let neg := Byte.eqb c "-"%byte in
      let s' := if is_sign c then rest else s in
      match ParseUint s' with
      | (_, Some ErrSyntax) => (0, Some (syntaxError "ParseInt" s))
      | (un, _) =>
          if negb neg && (2 ^ 63 <=? un)
          then (2 ^ 63 - 1, Some (rangeError "ParseInt" s))
          else if neg && (2 ^ 63 <? un)
          then (- 2 ^ 63, Some (rangeError "ParseInt" s))
          else (if neg then - un else un, None)
      end
  end.

(** [strconv.Atoi] with a 64-bit [int]: the fast path for strings of 1 to
    18 bytes, [ParseInt] for the others. *)
Definition Atoi (s : list byte) : Z * option NumError :=
  let sLen := List.length s in
  if (Nat.ltb 0 sLen && Nat.ltb sLen 19)%bool then
    match s with
    | [] => (0, Some (syntaxError "Atoi" s))
    | c :: rest =>
        let s' := if is_sign c then rest else s in
        match s' with
        | [] => (0, Some (syntaxError "Atoi" s))
        | _ =>
            match atoi_loop s' 0 with
            | None => (0, Some (syntaxError "Atoi" s))
            | Some n => (if Byte.eqb c "-"%byte then - n else n, None)
            end
        end
    end
  else
    match ParseInt s with
    | (i64, Some e) => (i64, Some (mkNumError "Atoi" (Num e) (Err e)))
    | (i64, None) => (i64, None)
    end.

End strconv.

(** ** fmt *)

Module fmt.

Definition digit (d : Z) : byte := byte_of_Z (48 + d).

(** The digit loop of [fmtInteger] in base 10, most significant digit
    first: [for u >= 10 { ...; u = u / 10 }] and the last digit.  A
    [uint64] has at most 20 decimal digits, which bounds the loop. *)
Fixpoint fmt_digits (fuel : nat) (u : Z) (acc : list byte) : list byte :=
  match fuel with
  | O => acc
  | S fuel' =>
      if u <? 10 then digit u :: acc
      else fmt_digits fuel' (u / 10) (digit (u mod 10) :: acc)
  end.

(** [fmt.Sprintf("%04d", v)] for an [int]: at least four characters, the
    sign of a negative number counted among them and written first. *)
Definition Sprintf04d (v : Z) : list byte :=
  let negative := v <? 0 in
  let u := if negative then - v else v in
  let prec := if negative then 3%nat else 4%nat in
  let ds := fmt_digits 20 u [] in
  let ds := repeat "0"%byte (prec - List.length ds) ++ ds in
  if negative then "-"%byte :: ds else ds.

Definition udigits : list byte := list_byte_of_string "0123456789ABCDEF".

(** [fmt.Sprintf("%X", s)] for a string: two upper-case hexadecimal
    characters a byte. *)
Fixpoint SprintfX (s : list byte) : list byte :=
  match s with
  | [] => []
  | c :: rest =>
      hex.hexchar udigits (Z.shiftr (byte_to_Z c) 4)
        :: hex.hexchar udigits (Z.land (byte_to_Z c) 15)
        :: SprintfX rest
  end.

End fmt.

(** ** bytes *)

Module bytes.

(** [bytes.Count(s, sep)] for a separator of one byte [c]: the number of
    bytes of [s] equal to [c]. *)
Definition Count (s : list byte) (c : byte) : nat :=
  List.length (filter (Byte.eqb c) s).

End bytes.

(** ** Package simplemli *)

(** [empty] is the slice returned along with an error. *)
Definition empty : list byte := make 0.

Definition Size2I : Z := 2.
Definition Size2E : Z := 2.
Definition Size4I : Z := 4.
Definition Size4E : Z := 4.
Definition Size2EE : Z := 2.
Definition Size2BCD2 : Z := 4.
Definition SizeA4E : Z := 4.

Definition MLI2I : string := "2I".
Definition MLI2E : string := "2E".
Definition MLI4I : string := "4I".
Definition MLI4E : string := "4E".
Definition MLI2EE : string := "2EE".
Definition MLI2BCD2 : string := "2BCD2".
Definition MLIA4E : string := "A4E".

(** The error values of the package.  [ErrByteSize] and [ErrLength] are its
    two sentinel errors; the three others are built by [fmt.Errorf], two of
    them around the error of the library call that failed. *)
Inductive error : Type :=
| ErrByteSize
| ErrLength
| ErrInvalidType
| ErrDecodeHex (e : strconv.NumError)
| ErrDecodeString (e : strconv.NumError)
| ErrEncodeHex (e : hex.error).

Definition len (b : list byte) : Z := Z.of_nat (List.length b).

Definition unsafeByteToStr (b : list byte) : list byte := b.

Definition Decode (key : string) (b : list byte) : run (Z * option error) :=
  if String.eqb key MLI2I then
    if negb (len b =? Size2I) then Done (0, Some ErrByteSize)
    else
      u <- binary.Uint16 b ;;
      let n := int_of_uint u in
      if n =? 0 then Done (0, None)
      else
        let n := int_sub n Size2I in
        if n <? 0 then Done (0, Some ErrLength) else Done (n, None)
  else if String.eqb key MLI2E then
    if negb (len b =? Size2E) then Done (0, Some ErrByteSize)
    else
      u <- binary.Uint16 b ;;
      Done (int_of_uint u, None)
  else if String.eqb key MLI4I then
    if negb (len b =? Size4I) then Done (0, Some ErrByteSize)
    else
      u <- binary.Uint32 b ;;
      let n := int_of_uint u in
      if n =? 0 then Done (0, None)
      else
        let n := int_sub n Size4I in
        if n <? 0 then Done (0, Some ErrLength) else Done (n, None)
  else if String.eqb key MLI4E then
    if negb (len b =? Size4E) then Done (0, Some ErrByteSize)
    else
      u <- binary.Uint32 b ;;
      Done (int_of_uint u, None)
  else if String.eqb key MLI2EE then
    if negb (len b =? Size2EE) then Done (0, Some ErrByteSize)
    else
      u <- binary.Uint16 b ;;
      Done (int_add (int_of_uint u) 2, None)
  else if String.eqb key MLI2BCD2 then
    if negb (len b =? Size2BCD2) then Done (0, Some ErrByteSize)
    else
      bcd <- slice b 2 4 ;;
      match strconv.Atoi (hex.EncodeToString bcd) with
      | (_, Some err) => Done (0, Some (ErrDecodeHex err))
      | (n, None) =>
          if n =? 0 then Done (0, None)
          else
            let n := int_sub n Size2BCD2 in
            if n <? 0 then Done (0, Some ErrLength) else Done (n, None)
      end
  else if String.eqb key MLIA4E then
    if negb (len b =? SizeA4E) then Done (0, Some ErrByteSize)
    else if Z.of_nat (bytes.Count b "0"%byte) =? len b then Done (0, None)
    else
      match strconv.Atoi (unsafeByteToStr b) with
      | (_, Some err) => Done (0, Some (ErrDecodeString err))
      | (n, None) => Done (n, None)
      end
  else Done (0, Some ErrInvalidType).

Definition Encode (key : string) (length : Z) : run (list byte * option error) :=
  if length <? 0 then Done (empty, Some ErrLength)
  else if String.eqb key MLI2I then
    b <- binary.PutUint16 (make (Z.to_nat Size2I)) (uint16 (int_add length Size2I)) ;;
    Done (b, None)
  else if String.eqb key MLI2E then
    b <- binary.PutUint16 (make (Z.to_nat Size2E)) (uint16 length) ;;
    Done (b, None)
  else if String.eqb key MLI4I then
    b <- binary.PutUint32 (make (Z.to_nat Size4I)) (uint32 (int_add length Size4I)) ;;
    Done (b, None)
  else if String.eqb key MLI4E then
    b <- binary.PutUint32 (make (Z.to_nat Size4E)) (uint32 length) ;;
    Done (b, None)
  else if String.eqb key MLI2EE then
    b <- binary.PutUint16 (make (Z.to_nat Size2EE)) (uint16 (int_sub length Size2EE)) ;;
    Done (b, None)
  else if String.eqb key MLI2BCD2 then
    match hex.DecodeString (fmt.Sprintf04d (int_add length Size2BCD2)) with
    | (_, Some err) => Done (empty, Some (ErrEncodeHex err))
    | (h, None) => Done (make 2 ++ h, None)
    end
  else if String.eqb key MLIA4E then
    let s := fmt.Sprintf04d length in
    let s := fmt.SprintfX s in
    let '(b, _) := hex.DecodeString s in
    Done (b, None)
  else Done (empty, Some ErrInvalidType).

(** A buffer given by the values of its bytes. *)
Definition bytes_of (l : list Z) : list byte := map byte_of_Z l.

(** ** The variants, as the specification names them *)

Definition selectors : list string :=
  [MLI2I; MLI2E; MLI4I; MLI4E; MLI2EE; MLI2BCD2; MLIA4E].

Definition binary_selectors : list string :=
  [MLI2I; MLI2E; MLI4I; MLI4E; MLI2EE].

(** The fixed width of a variant, from the [Size] constants. *)
Definition width (key : string) : Z :=
  if String.eqb key MLI2I then Size2I
  else if String.eqb key MLI2E then Size2E
  else if String.eqb key MLI4I then Size4I
  else if String.eqb key MLI4E then Size4E
  else if String.eqb key MLI2EE then Size2EE
  else if String.eqb key MLI2BCD2 then Size2BCD2
  else if String.eqb key MLIA4E then SizeA4E
  else 0.

(** The value a variant writes for a length: the length adjusted by the
    width of an inclusive indicator or by the embedded header. *)
Definition written (key : string) (length : Z) : Z :=
  if String.eqb key MLI2I then length + Size2I
  else if String.eqb key MLI4I then length + Size4I
  else if String.eqb key MLI2EE then length - Size2EE
  else if String.eqb key MLI2BCD2 then length + Size2BCD2
  else length.

(** The largest value a variant can hold: two or four bytes of an unsigned
    integer, or four decimal digits. *)
Definition capacity (key : string) : Z :=
  if String.eqb key MLI2BCD2 then 9999
  else if String.eqb key MLIA4E then 9999
  else 2 ^ (8 * width key) - 1.

(** A length is in the representable range of a variant when it is not
    negative and the adjusted value fits the variant. *)
Definition representable (key : string) (length : Z) : Prop :=
  0 <= length /\ 0 <= written key length <= capacity key.

(** The unsigned integer a buffer holds in network byte order. *)
Definition big_endian (b : list byte) : Z :=
  fold_left (fun acc x => acc * 256 + byte_to_Z x) b 0.

Definition is_digit (c : byte) : bool :=
  (48 <=? byte_to_Z c) && (byte_to_Z c <=? 57).

(** The number a string of decimal digits denotes. *)
Definition decimal_value (s : list byte) : Z :=
  fold_left (fun n c => n * 10 + (byte_to_Z c - 48)) s 0.

(** One step of [decimal_value]. *)
Definition decimal_step (n : Z) (c : byte) : Z := n * 10 + (byte_to_Z c - 48).

(** [Encode] succeeds with a buffer of the variant's width that [Decode]
    reads back as the length. *)
Definition roundtrips (key : string) (length : Z) : bool :=
  match Encode key length with
  | Done (b, None) =>
      (len b =? width key)
      && match Decode key b with
         | Done (n, None) => n =? length
         | _ => false
         end
  | _ => false
  end.

(** A property of the integers from 0 below [n], decided by running it. *)
Definition below (n : Z) (P : Z -> bool) : bool :=
  forallb P (map Z.of_nat (seq 0 (Z.to_nat n))).

(** * Properties *)

(** ** The scenarios of the test table ([TestMLIs], [TestInvalid]) *)

Example Encode_2I_43 : Encode MLI2I 43 = Done (bytes_of [0x00; 0x2d], None).
Proof. reflexivity. Qed.

Example Decode_2I_002d : Decode MLI2I (bytes_of [0x00; 0x2d]) = Done (43, None).
Proof. reflexivity. Qed.

Example Encode_4I_49 :
  Encode MLI4I 49 = Done (bytes_of [0x00; 0x00; 0x00; 0x35], None).
Proof. reflexivity. Qed.

Example Encode_2EE_56 : Encode MLI2EE 56 = Done (bytes_of [0x00; 0x36], None).
Proof. reflexivity. Qed.

Example Decode_2EE_0036 : Decode MLI2EE (bytes_of [0x00; 0x36]) = Done (56, None).
Proof. reflexivity. Qed.

Example Encode_2BCD2_284 :
  Encode MLI2BCD2 284 = Done (bytes_of [0x00; 0x00; 0x02; 0x88], None).
Proof. reflexivity. Qed.

Example Decode_2BCD2_0288 :
  Decode MLI2BCD2 (bytes_of [0x00; 0x00; 0x02; 0x88]) = Done (284, None).
Proof. reflexivity. Qed.

Example Decode_2BCD2_0001 :
  Decode MLI2BCD2 (bytes_of [0x00; 0x00; 0x00; 0x01]) = Done (0, Some ErrLength).
Proof. reflexivity. Qed.

Example Encode_A4E_43 : Encode MLIA4E 43 = Done (list_byte_of_string "0043", None).
Proof. reflexivity. Qed.

Example Decode_A4E_0043 :
  Decode MLIA4E (list_byte_of_string "0043") = Done (43, None).
Proof. reflexivity. Qed.

Example Decode_A4E_helo :
  Decode MLIA4E (list_byte_of_string "helo") =
  Done (0, Some (ErrDecodeString
                   (strconv.syntaxError "Atoi" (list_byte_of_string "helo")))).
Proof. reflexivity. Qed.

Example Encode_Invalid : Encode "Invalid" 0 = Done (empty, Some ErrInvalidType).
Proof. reflexivity. Qed.

Example Decode_Invalid : Decode "Invalid" empty = Done (0, Some ErrInvalidType).
Proof. reflexivity. Qed.

(** ** Bytes and machine integers *)

Lemma byte_to_Z_range (b : byte) : 0 <= byte_to_Z b < 256.
Proof.
  unfold byte_to_Z. pose proof (Byte.to_N_bounded b). lia.
Qed.

Lemma byte_to_of_Z (v : Z) : byte_to_Z (byte_of_Z v) = v mod 256.
Proof.
  unfold byte_to_Z, byte_of_Z.
  assert (Hr : 0 <= v mod 256 < 256) by (apply Z.mod_pos_bound; lia).
  destruct (Byte.of_N (Z.to_N (v mod 256))) as [b|] eqn:E.
  - apply Byte.to_of_N in E. rewrite E. lia.
  - apply Byte.of_N_None_iff in E. lia.
Qed.

Lemma byte_of_to_Z (b : byte) : byte_of_Z (byte_to_Z b) = b.
Proof.
  unfold byte_of_Z. pose proof (byte_to_Z_range b) as Hr.
  rewrite Z.mod_small by exact Hr.
  unfold byte_to_Z. rewrite N2Z.id, Byte.of_to_N. reflexivity.
Qed.

Lemma byte_to_Z_inj (a b : byte) : byte_to_Z a = byte_to_Z b -> a = b.
Proof.
  intros H. rewrite <- (byte_of_to_Z a), <- (byte_of_to_Z b), H. reflexivity.
Qed.

Lemma int_wrap_small (z : Z) : min_int <= z <= max_int -> int_wrap z = z.
Proof.
  unfold int_wrap, min_int, max_int. intros H.
  rewrite Z.mod_small; lia.
Qed.

Lemma int_wrap_range (z : Z) : min_int <= int_wrap z <= max_int.
Proof.
  unfold int_wrap, min_int, max_int.
  pose proof (Z.mod_pos_bound (z + 2 ^ 63) (2 ^ 64)). lia.
Qed.

(** A conversion to an unsigned type of at most 64 bits forgets the
    wrap-around of [int]. *)
Lemma int_wrap_mod (z : Z) (k : Z) :
  0 <= k <= 64 -> int_wrap z mod 2 ^ k = z mod 2 ^ k.
Proof.
  intros Hk. unfold int_wrap.
  assert (Hd : (2 ^ k | 2 ^ 64)).
  { exists (2 ^ (64 - k)). rewrite <- Z.pow_add_r by lia. f_equal. lia. }
  assert (Hd' : (2 ^ k | 2 ^ 63 + 2 ^ 63)).
  { replace (2 ^ 63 + 2 ^ 63) with (2 ^ 64) by reflexivity. exact Hd. }
  assert (Hp : 0 < 2 ^ k) by (apply Z.pow_pos_nonneg; lia).
  rewrite <- Zminus_mod_idemp_l.
  rewrite Z.mod_mod_divide by exact Hd.
  rewrite Zminus_mod_idemp_l.
  destruct Hd' as [q Hq].
  replace (z + 2 ^ 63 - 2 ^ 63) with z by lia. reflexivity.
Qed.

Lemma lor_shiftl_add (lo hi k : Z) :
  0 <= k -> 0 <= lo < 2 ^ k ->
  Z.lor lo (Z.shiftl hi k) = lo + hi * 2 ^ k.
Proof.
  intros Hk Hlo.
  rewrite <- (Z.shiftl_mul_pow2 hi k Hk).
  rewrite <- Z.add_lor_land.
  replace (Z.land lo (Z.shiftl hi k)) with 0; [lia|].
  symmetry. apply Z.bits_inj'. intros m Hm.
  rewrite Z.land_spec, Z.bits_0.
  destruct (Z.lt_ge_cases m k) as [Hlt|Hge].
  - rewrite Z.shiftl_spec_low by exact Hlt. apply andb_false_r.
  - replace lo with (lo mod 2 ^ k) by (apply Z.mod_small; exact Hlo).
    rewrite Z.mod_pow2_bits_high by lia. reflexivity.
Qed.

(** ** Network byte order *)

Lemma Uint16_value (b0 b1 : byte) :
  binary.Uint16 [b0; b1] = Done (byte_to_Z b0 * 256 + byte_to_Z b1).
Proof.
  unfold binary.Uint16. f_equal.
  pose proof (byte_to_Z_range b1).
  rewrite (lor_shiftl_add _ _ 8) by lia.
  change (2 ^ 8) with 256. lia.
Qed.

Lemma Uint32_value (b0 b1 b2 b3 : byte) :
  binary.Uint32 [b0; b1; b2; b3] =
  Done (((byte_to_Z b0 * 256 + byte_to_Z b1) * 256 + byte_to_Z b2) * 256
        + byte_to_Z b3).
Proof.
  unfold binary.Uint32. f_equal.
  pose proof (byte_to_Z_range b0). pose proof (byte_to_Z_range b1).
  pose proof (byte_to_Z_range b2). pose proof (byte_to_Z_range b3).
  rewrite (lor_shiftl_add (byte_to_Z b3) _ 8) by lia.
  change (2 ^ 8) with 256.
  rewrite (lor_shiftl_add _ _ 16) by (change (2 ^ 16) with 65536; lia).
  change (2 ^ 16) with 65536.
  rewrite (lor_shiftl_add _ _ 24) by (change (2 ^ 24) with 16777216; lia).
  change (2 ^ 24) with 16777216. lia.
Qed.

Lemma Uint16_range (b : list byte) (u : Z) :
  binary.Uint16 b = Done u -> 0 <= u < 2 ^ 16.
Proof.
  destruct b as [|b0 [|b1 rest]]; try discriminate.
  intros H. change (binary.Uint16 (b0 :: b1 :: rest)) with (binary.Uint16 [b0; b1]) in H.
  rewrite Uint16_value in H. injection H as <-.
  pose proof (byte_to_Z_range b0). pose proof (byte_to_Z_range b1).
  change (2 ^ 16) with 65536. lia.
Qed.

Lemma Uint32_range (b : list byte) (u : Z) :
  binary.Uint32 b = Done u -> 0 <= u < 2 ^ 32.
Proof.
  destruct b as [|b0 [|b1 [|b2 [|b3 rest]]]]; try discriminate.
  intros H.
  change (binary.Uint32 (b0 :: b1 :: b2 :: b3 :: rest))
    with (binary.Uint32 [b0; b1; b2; b3]) in H.
  rewrite Uint32_value in H. injection H as <-.
  pose proof (byte_to_Z_range b0). pose proof (byte_to_Z_range b1).
  pose proof (byte_to_Z_range b2). pose proof (byte_to_Z_range b3).
  change (2 ^ 32) with 4294967296. lia.
Qed.

Lemma PutUint16_make (v : Z) :
  binary.PutUint16 (make 2) v = Done [byte_of_Z (v / 256); byte_of_Z v].
Proof.
  unfold binary.PutUint16, make. simpl repeat.
  rewrite Z.shiftr_div_pow2 by lia. reflexivity.
Qed.

Lemma PutUint32_make (v : Z) :
  binary.PutUint32 (make 4) v =
  Done [byte_of_Z (v / 16777216); byte_of_Z (v / 65536);
        byte_of_Z (v / 256); byte_of_Z v].
Proof.
  unfold binary.PutUint32, make. simpl repeat.
  rewrite !Z.shiftr_div_pow2 by lia. reflexivity.
Qed.

(** What [PutUint16] wrote, [Uint16] reads back, up to the 16 bits kept. *)
Lemma Uint16_PutUint16 (v : Z) :
  bind (binary.PutUint16 (make 2) v) binary.Uint16 = Done (v mod 2 ^ 16).
Proof.
  rewrite PutUint16_make. unfold bind. rewrite Uint16_value.
  rewrite !byte_to_of_Z. f_equal.
  change (2 ^ 16) with 65536.
  pose proof (Z.div_mod v 256 ltac:(lia)).
  pose proof (Z.div_mod (v / 256) 256 ltac:(lia)).
  pose proof (Z.mod_pos_bound v 256 ltac:(lia)).
  pose proof (Z.mod_pos_bound (v / 256) 256 ltac:(lia)).
  apply Z.mod_unique with (q := v / 256 / 256); lia.
Qed.

Lemma Uint32_PutUint32 (v : Z) :
  bind (binary.PutUint32 (make 4) v) binary.Uint32 = Done (v mod 2 ^ 32).
Proof.
  rewrite PutUint32_make. unfold bind. rewrite Uint32_value.
  rewrite !byte_to_of_Z. f_equal.
  change (2 ^ 32) with 4294967296.
  replace (v / 65536) with (v / 256 / 256)
    by (rewrite Z.div_div by lia; reflexivity).
  replace (v / 16777216) with (v / 256 / 256 / 256)
    by (rewrite !Z.div_div by lia; reflexivity).
  pose proof (Z.div_mod v 256 ltac:(lia)).
  pose proof (Z.div_mod (v / 256) 256 ltac:(lia)).
  pose proof (Z.div_mod (v / 256 / 256) 256 ltac:(lia)).
  pose proof (Z.div_mod (v / 256 / 256 / 256) 256 ltac:(lia)).
  pose proof (Z.mod_pos_bound v 256 ltac:(lia)).
  pose proof (Z.mod_pos_bound (v / 256) 256 ltac:(lia)).
  pose proof (Z.mod_pos_bound (v / 256 / 256) 256 ltac:(lia)).
  pose proof (Z.mod_pos_bound (v / 256 / 256 / 256) 256 ltac:(lia)).
  apply Z.mod_unique with (q := v / 256 / 256 / 256 / 256); lia.
Qed.

(** ** The branches of [Decode] and [Encode] *)

Lemma Decode_2I (b : list byte) :
  Decode MLI2I b =
  if negb (len b =? Size2I) then Done (0, Some ErrByteSize)
  else
    u <- binary.Uint16 b ;;
    if int_of_uint u =? 0 then Done (0, None)
    else if int_sub (int_of_uint u) Size2I <? 0 then Done (0, Some ErrLength)
    else Done (int_sub (int_of_uint u) Size2I, None).
Proof. reflexivity. Qed.

Lemma Decode_2E (b : list byte) :
  Decode MLI2E b =
  if negb (len b =? Size2E) then Done (0, Some ErrByteSize)
  else u <- binary.Uint16 b ;; Done (int_of_uint u, None).
Proof. reflexivity. Qed.

Lemma Decode_4I (b : list byte) :
  Decode MLI4I b =
  if negb (len b =? Size4I) then Done (0, Some ErrByteSize)
  else
    u <- binary.Uint32 b ;;
    if int_of_uint u =? 0 then Done (0, None)
    else if int_sub (int_of_uint u) Size4I <? 0 then Done (0, Some ErrLength)
    else Done (int_sub (int_of_uint u) Size4I, None).
Proof. reflexivity. Qed.

Lemma Decode_4E (b : list byte) :
  Decode MLI4E b =
  if negb (len b =? Size4E) then Done (0, Some ErrByteSize)
  else u <- binary.Uint32 b ;; Done (int_of_uint u, None).
Proof. reflexivity. Qed.

Lemma Decode_2EE (b : list byte) :
  Decode MLI2EE b =
  if negb (len b =? Size2EE) then Done (0, Some ErrByteSize)
  else u <- binary.Uint16 b ;; Done (int_add (int_of_uint u) 2, None).
Proof. reflexivity. Qed.

Lemma Decode_2BCD2 (b : list byte) :
  Decode MLI2BCD2 b =
  if negb (len b =? Size2BCD2) then Done (0, Some ErrByteSize)
  else
    bcd <- slice b 2 4 ;;
    match strconv.Atoi (hex.EncodeToString bcd) with
    | (_, Some err) => Done (0, Some (ErrDecodeHex err))
    | (n, None) =>
        if n =? 0 then Done (0, None)
        else if int_sub n Size2BCD2 <? 0 then Done (0, Some ErrLength)
        else Done (int_sub n Size2BCD2, None)
    end.
Proof. reflexivity. Qed.

Lemma Decode_A4E (b : list byte) :
  Decode MLIA4E b =
  if negb (len b =? SizeA4E) then Done (0, Some ErrByteSize)
  else if Z.of_nat (bytes.Count b "0"%byte) =? len b then Done (0, None)
  else
    match strconv.Atoi (unsafeByteToStr b) with
    | (_, Some err) => Done (0, Some (ErrDecodeString err))
    | (n, None) => Done (n, None)
    end.
Proof. reflexivity. Qed.

Lemma Encode_nonneg (key : string) (length : Z) :
  0 <= length ->
  Encode key length =
  if String.eqb key MLI2I then
    b <- binary.PutUint16 (make 2) (uint16 (int_add length Size2I)) ;;
    Done (b, None)
  else if String.eqb key MLI2E then
    b <- binary.PutUint16 (make 2) (uint16 length) ;; Done (b, None)
  else if String.eqb key MLI4I then
    b <- binary.PutUint32 (make 4) (uint32 (int_add length Size4I)) ;;
    Done (b, None)
  else if String.eqb key MLI4E then
    b <- binary.PutUint32 (make 4) (uint32 length) ;; Done (b, None)
  else if String.eqb key MLI2EE then
    b <- binary.PutUint16 (make 2) (uint16 (int_sub length Size2EE)) ;;
    Done (b, None)
  else if String.eqb key MLI2BCD2 then
    match hex.DecodeString (fmt.Sprintf04d (int_add length Size2BCD2)) with
    | (_, Some err) => Done (empty, Some (ErrEncodeHex err))
    | (h, None) => Done (make 2 ++ h, None)
    end
  else if String.eqb key MLIA4E then
    let '(b, _) := hex.DecodeString (fmt.SprintfX (fmt.Sprintf04d length)) in
    Done (b, None)
  else Done (empty, Some ErrInvalidType).
Proof.
  intros H. unfold Encode.
  destruct (length <? 0) eqn:E; [apply Z.ltb_lt in E; lia | reflexivity].
Qed.

(** A key of a list of selectors is one of its strings. *)
Ltac each_selector H :=
  repeat (destruct H as [H | H]; [subst | ]); [ .. | contradiction H].

Lemma big_endian_2 (b0 b1 : byte) :
  big_endian [b0; b1] = byte_to_Z b0 * 256 + byte_to_Z b1.
Proof. unfold big_endian. simpl. lia. Qed.

Lemma big_endian_4 (b0 b1 b2 b3 : byte) :
  big_endian [b0; b1; b2; b3] =
  ((byte_to_Z b0 * 256 + byte_to_Z b1) * 256 + byte_to_Z b2) * 256
  + byte_to_Z b3.
Proof. unfold big_endian. simpl. lia. Qed.

Lemma len_2_inv (b : list byte) : len b = 2 -> exists b0 b1, b = [b0; b1].
Proof.
  unfold len. destruct b as [|b0 [|b1 [|b2 rest]]]; simpl; intros H; try lia.
  eauto.
Qed.

Lemma len_4_inv (b : list byte) :
  len b = 4 -> exists b0 b1 b2 b3, b = [b0; b1; b2; b3].
Proof.
  unfold len.
  destruct b as [|b0 [|b1 [|b2 [|b3 [|b4 rest]]]]]; simpl; intros H; try lia.
  eauto.
Qed.

Lemma PutUint16_written (v : Z) :
  exists b, binary.PutUint16 (make 2) v = Done b /\ len b = 2
            /\ big_endian b = v mod 2 ^ 16.
Proof.
  pose proof (Uint16_PutUint16 v) as H. rewrite PutUint16_make in *.
  eexists. split; [reflexivity|]. split; [reflexivity|].
  unfold bind in H. rewrite Uint16_value in H. injection H as H.
  rewrite big_endian_2. exact H.
Qed.

Lemma PutUint32_written (v : Z) :
  exists b, binary.PutUint32 (make 4) v = Done b /\ len b = 4
            /\ big_endian b = v mod 2 ^ 32.
Proof.
  pose proof (Uint32_PutUint32 v) as H. rewrite PutUint32_make in *.
  eexists. split; [reflexivity|]. split; [reflexivity|].
  unfold bind in H. rewrite Uint32_value in H. injection H as H.
  rewrite big_endian_4. exact H.
Qed.

Lemma uint16_int_wrap (z : Z) : uint16 (int_wrap z) mod 2 ^ 16 = z mod 2 ^ 16.
Proof.
  unfold uint16. rewrite Z.mod_mod by lia. apply int_wrap_mod. lia.
Qed.

Lemma uint32_int_wrap (z : Z) : uint32 (int_wrap z) mod 2 ^ 32 = z mod 2 ^ 32.
Proof.
  unfold uint32. rewrite Z.mod_mod by lia. apply int_wrap_mod. lia.
Qed.

(** ** Size mismatch *)

(** C4. For each of the seven selectors, a buffer whose length is not the
    width of the variant makes [Decode] return [ErrByteSize], whatever the
    buffer holds and however short it is: no byte of it is read. *)
Theorem Decode_size_mismatch (key : string) (b : list byte) :
  In key selectors -> len b <> width key ->
  Decode key b = Done (0, Some ErrByteSize).
Proof.
  intros Hk Hlen. unfold selectors in Hk.
  each_selector Hk;
    match goal with
    | H : len b <> width ?k |- _ =>
        let w := eval compute in (width k) in
        change (width k) with w in H
    end.
  - rewrite Decode_2I. destruct (Z.eqb_spec (len b) Size2I); [contradiction | reflexivity].
  - rewrite Decode_2E. destruct (Z.eqb_spec (len b) Size2E); [contradiction | reflexivity].
  - rewrite Decode_4I. destruct (Z.eqb_spec (len b) Size4I); [contradiction | reflexivity].
  - rewrite Decode_4E. destruct (Z.eqb_spec (len b) Size4E); [contradiction | reflexivity].
  - rewrite Decode_2EE. destruct (Z.eqb_spec (len b) Size2EE); [contradiction | reflexivity].
  - rewrite Decode_2BCD2. destruct (Z.eqb_spec (len b) Size2BCD2); [contradiction | reflexivity].
  - rewrite Decode_A4E. destruct (Z.eqb_spec (len b) SizeA4E); [contradiction | reflexivity].
Qed.

Lemma Decode_size_mismatch_witness :
  In MLI4I selectors /\ len [x00; x00; x01] <> width MLI4I
  /\ Decode MLI4I [x00; x00; x01] = Done (0, Some ErrByteSize).
Proof.
  assert (Hk : In MLI4I selectors) by (simpl; auto).
  assert (Hl : len [x00; x00; x01] <> width MLI4I) by (vm_compute; discriminate).
  split; [exact Hk|]. split; [exact Hl|].
  exact (Decode_size_mismatch MLI4I [x00; x00; x01] Hk Hl).
Defined.

(** ** Negative lengths *)

(** C5. [Encode] answers a negative length with [ErrLength] and the empty
    slice for every key, one of the seven selectors or not: the test comes
    before the switch on the key. *)
Theorem Encode_negative (key : string) (length : Z) :
  length < 0 -> Encode key length = Done (empty, Some ErrLength).
Proof.
  intros H. unfold Encode.
  apply Z.ltb_lt in H. rewrite H. reflexivity.
Qed.

Lemma Encode_negative_witness :
  -1 < 0 /\ Encode "bogus" (-1) = Done (empty, Some ErrLength).
Proof.
  assert (H : -1 < 0) by lia.
  split; [exact H | exact (Encode_negative "bogus" (-1) H)].
Defined.

(** ** Inclusive indicators *)

(** C6. [Decode] of a 2I (4I) buffer of two (four) bytes holding the
    unsigned value [raw]: 0 when [raw] is 0, [ErrLength] when [raw] is
    positive and less than the width, [raw] less the width otherwise. *)
Theorem Decode_inclusive (key : string) (b : list byte) :
  In key [MLI2I; MLI4I] -> len b = width key ->
  Decode key b =
  Done (let raw := big_endian b in
        if raw =? 0 then (0, None)
        else if raw <? width key then (0, Some ErrLength)
        else (raw - width key, None)).
Proof.
  intros Hk Hlen. each_selector Hk.
  - change (width MLI2I) with 2 in *.
    destruct (len_2_inv b Hlen) as (b0 & b1 & ->).
    rewrite Decode_2I. change (negb (len [b0; b1] =? Size2I)) with false.
    cbv iota. rewrite Uint16_value. unfold bind. rewrite big_endian_2.
    pose proof (byte_to_Z_range b0). pose proof (byte_to_Z_range b1).
    set (raw := byte_to_Z b0 * 256 + byte_to_Z b1) in *.
    unfold int_of_uint, int_sub, Size2I.
    rewrite (int_wrap_small raw) by (unfold min_int, max_int; lia).
    rewrite (int_wrap_small (raw - 2)) by (unfold min_int, max_int; lia).
    cbv zeta.
    destruct (Z.eqb_spec raw 0); [reflexivity|].
    destruct (Z.ltb_spec (raw - 2) 0); destruct (Z.ltb_spec raw 2);
      try lia; reflexivity.
  - change (width MLI4I) with 4 in *.
    destruct (len_4_inv b Hlen) as (b0 & b1 & b2 & b3 & ->).
    rewrite Decode_4I. change (negb (len [b0; b1; b2; b3] =? Size4I)) with false.
    cbv iota. rewrite Uint32_value. unfold bind. rewrite big_endian_4.
    pose proof (byte_to_Z_range b0). pose proof (byte_to_Z_range b1).
    pose proof (byte_to_Z_range b2). pose proof (byte_to_Z_range b3).
    set (raw := ((byte_to_Z b0 * 256 + byte_to_Z b1) * 256 + byte_to_Z b2) * 256
                + byte_to_Z b3) in *.
    unfold int_of_uint, int_sub, Size4I.
    rewrite (int_wrap_small raw) by (unfold min_int, max_int; lia).
    rewrite (int_wrap_small (raw - 4)) by (unfold min_int, max_int; lia).
    cbv zeta.
    destruct (Z.eqb_spec raw 0); [reflexivity|].
    destruct (Z.ltb_spec (raw - 4) 0); destruct (Z.ltb_spec raw 4);
      try lia; reflexivity.
Qed.

(** The bytes 00 01 read as 2I claim a total shorter than the indicator. *)
Lemma Decode_inclusive_witness :
  In MLI2I [MLI2I; MLI4I] /\ len [x00; x01] = width MLI2I
  /\ Decode MLI2I [x00; x01] = Done (0, Some ErrLength).
Proof.
  assert (Hk : In MLI2I [MLI2I; MLI4I]) by (simpl; auto).
  assert (Hl : len [x00; x01] = width MLI2I) by reflexivity.
  split; [exact Hk|]. split; [exact Hl|].
  exact (Decode_inclusive MLI2I [x00; x01] Hk Hl).
Defined.

(** ** The reserved bytes of 2BCD2 *)

(** C9. [Decode] of a 2BCD2 buffer reads the bytes at indices 2 and 3 only:
    two buffers of four bytes that agree there decode alike, value and
    error, whatever their first two bytes. *)
Theorem Decode_2BCD2_ignores_header (b b' : list byte) :
  len b = 4 -> len b' = 4 ->
  nth_error b 2 = nth_error b' 2 -> nth_error b 3 = nth_error b' 3 ->
  Decode MLI2BCD2 b = Decode MLI2BCD2 b'.
Proof.
  intros Hb Hb' H2 H3.
  destruct (len_4_inv b Hb) as (a0 & a1 & a2 & a3 & ->).
  destruct (len_4_inv b' Hb') as (c0 & c1 & c2 & c3 & ->).
  simpl in H2, H3. injection H2 as ->. injection H3 as ->.
  rewrite !Decode_2BCD2. reflexivity.
Qed.

Lemma Decode_2BCD2_ignores_header_witness :
  len [x00; x00; x02; x88] = 4 /\ len [xff; xab; x02; x88] = 4
  /\ nth_error [x00; x00; x02; x88] 2 = nth_error [xff; xab; x02; x88] 2
  /\ nth_error [x00; x00; x02; x88] 3 = nth_error [xff; xab; x02; x88] 3
  /\ Decode MLI2BCD2 [x00; x00; x02; x88]
     = Decode MLI2BCD2 [xff; xab; x02; x88].
Proof.
  split; [reflexivity|]. split; [reflexivity|].
  split; [reflexivity|]. split; [reflexivity|].
  exact (Decode_2BCD2_ignores_header [x00; x00; x02; x88]
           [xff; xab; x02; x88] eq_refl eq_refl eq_refl eq_refl).
Defined.

(** ** The binary variants never fail *)

(** C10. For a length that is not negative, [Encode] with one of the five
    binary selectors returns no error and a buffer of the variant's width
    that holds the adjusted length modulo 2^16 or 2^32; so a 2EE length
    below 2 is written as the length less 2 modulo 2^16. *)
Theorem Encode_binary_total (key : string) (length : Z) :
  In key binary_selectors -> 0 <= length ->
  exists b, Encode key length = Done (b, None)
            /\ len b = width key
            /\ big_endian b = written key length mod 2 ^ (8 * width key).
Proof.
  intros Hk HL. rewrite (Encode_nonneg key length HL).
  unfold binary_selectors in Hk. each_selector Hk.
  - destruct (PutUint16_written (uint16 (int_add length Size2I)))
      as (b & E & Hl & Hv).
    exists b. cbv iota. rewrite E. repeat split; [exact Hl|].
    rewrite Hv. apply uint16_int_wrap.
  - destruct (PutUint16_written (uint16 length)) as (b & E & Hl & Hv).
    exists b. cbv iota. rewrite E. repeat split; [exact Hl|].
    rewrite Hv. unfold uint16. apply Z.mod_mod. discriminate.
  - destruct (PutUint32_written (uint32 (int_add length Size4I)))
      as (b & E & Hl & Hv).
    exists b. cbv iota. rewrite E. repeat split; [exact Hl|].
    rewrite Hv. apply uint32_int_wrap.
  - destruct (PutUint32_written (uint32 length)) as (b & E & Hl & Hv).
    exists b. cbv iota. rewrite E. repeat split; [exact Hl|].
    rewrite Hv. unfold uint32. apply Z.mod_mod. discriminate.
  - destruct (PutUint16_written (uint16 (int_sub length Size2EE)))
      as (b & E & Hl & Hv).
    exists b. cbv iota. rewrite E. repeat split; [exact Hl|].
    rewrite Hv. apply uint16_int_wrap.
Qed.

(** [Encode] of the 2EE length 0 writes 65534, the bytes FF FE. *)
Lemma Encode_binary_total_witness :
  In MLI2EE binary_selectors /\ 0 <= 0
  /\ exists b, Encode MLI2EE 0 = Done (b, None)
               /\ len b = width MLI2EE
               /\ big_endian b = written MLI2EE 0 mod 2 ^ (8 * width MLI2EE).
Proof.
  assert (Hk : In MLI2EE binary_selectors) by (simpl; auto 6).
  assert (H0 : 0 <= 0) by lia.
  split; [exact Hk|]. split; [exact H0|].
  exact (Encode_binary_total MLI2EE 0 Hk H0).
Defined.

Example Encode_2EE_zero : Encode MLI2EE 0 = Done ([xff; xfe], None).
Proof. reflexivity. Qed.

Example Encode_2EE_one : Encode MLI2EE 1 = Done ([xff; xff], None).
Proof. reflexivity. Qed.

(** ** Decimal digits *)

Ltac conjuncts := repeat match goal with |- _ /\ _ => split end.

Lemma decimal_value_fold (s : list byte) :
  decimal_value s = fold_left decimal_step s 0.
Proof. reflexivity. Qed.

Lemma digit_value (d : Z) : 0 <= d <= 9 -> byte_to_Z (fmt.digit d) = 48 + d.
Proof.
  intros H. unfold fmt.digit. rewrite byte_to_of_Z. apply Z.mod_small. lia.
Qed.

Lemma digit_is_digit (d : Z) : 0 <= d <= 9 -> is_digit (fmt.digit d) = true.
Proof.
  intros H. unfold is_digit. rewrite (digit_value d H).
  apply andb_true_intro. split; apply Z.leb_le; lia.
Qed.

(** With fuel for every digit, the digit loop writes, in front of what is
    already there, digits that denote the number, as many as the number
    has. *)
Lemma fmt_digits_spec (fuel : nat) :
  forall (u : Z) (acc : list byte),
    0 <= u < 10 ^ Z.of_nat (S fuel) ->
    exists ds,
      fmt.fmt_digits (S fuel) u acc = ds ++ acc
      /\ Forall (fun c => is_digit c = true) ds
      /\ (forall n, fold_left decimal_step ds n = n * 10 ^ len ds + u)
      /\ 0 < len ds
      /\ u < 10 ^ len ds
      /\ (len ds = 1 \/ 10 ^ (len ds - 1) <= u).
Proof.
  induction fuel as [|fuel IH]; intros u acc Hu.
  - change (10 ^ Z.of_nat 1) with 10 in Hu.
    exists [fmt.digit u]. simpl fmt.fmt_digits.
    destruct (Z.ltb_spec u 10); [|lia].
    conjuncts.
    + reflexivity.
    + constructor; [apply digit_is_digit; lia | constructor].
    + intros n. simpl. unfold decimal_step. rewrite digit_value by lia.
      change (len [fmt.digit u]) with 1. lia.
    + reflexivity.
    + change (len [fmt.digit u]) with 1. lia.
    + left. reflexivity.
  - change (fmt.fmt_digits (S (S fuel)) u acc)
      with (if u <? 10 then fmt.digit u :: acc
            else fmt.fmt_digits (S fuel) (u / 10) (fmt.digit (u mod 10) :: acc)).
    destruct (Z.ltb_spec u 10) as [Hlt|Hge].
    + exists [fmt.digit u]. conjuncts.
      * reflexivity.
      * constructor; [apply digit_is_digit; lia | constructor].
      * intros n. simpl. unfold decimal_step. rewrite digit_value by lia.
        change (len [fmt.digit u]) with 1. lia.
      * reflexivity.
      * change (len [fmt.digit u]) with 1. lia.
      * left. reflexivity.
    + assert (Hpow : 10 ^ Z.of_nat (S (S fuel)) = 10 * 10 ^ Z.of_nat (S fuel)).
      { rewrite (Nat2Z.inj_succ (S fuel)). apply Z.pow_succ_r. lia. }
      assert (Hm : 0 <= u mod 10 < 10) by (apply Z.mod_pos_bound; lia).
      pose proof (Z.div_mod u 10 ltac:(lia)) as Hdm.
      assert (Hq : 0 <= u / 10 < 10 ^ Z.of_nat (S fuel)) by lia.
      destruct (IH (u / 10) (fmt.digit (u mod 10) :: acc) Hq)
        as (ds & E & Hd & Hv & Hpos & Hub & Hlb).
      exists (ds ++ [fmt.digit (u mod 10)]).
      assert (Hlen : len (ds ++ [fmt.digit (u mod 10)]) = len ds + 1).
      { unfold len. rewrite length_app. simpl. lia. }
      assert (Hp1 : 10 ^ (len ds + 1) = 10 * 10 ^ len ds).
      { rewrite Z.pow_add_r by lia. lia. }
      rewrite Hlen. conjuncts.
      * rewrite E, <- app_assoc. reflexivity.
      * apply Forall_app. split; [exact Hd|].
        constructor; [apply digit_is_digit; lia | constructor].
      * intros n. rewrite fold_left_app, Hv. simpl. unfold decimal_step.
        rewrite digit_value by lia. rewrite Hp1. lia.
      * lia.
      * rewrite Hp1. lia.
      * right. replace (len ds + 1 - 1) with (len ds) by lia.
        destruct Hlb as [H1|Hlb].
        -- rewrite H1. change (10 ^ 1) with 10. lia.
        -- replace (len ds) with (Z.succ (len ds - 1)) by lia.
           rewrite Z.pow_succ_r by lia. lia.
Qed.

(** A [uint64] has fuel enough in [Sprintf04d]. *)
Lemma Sprintf04d_digits (u : Z) :
  0 <= u <= max_int ->
  exists ds,
    fmt.fmt_digits 20 u [] = ds
    /\ Forall (fun c => is_digit c = true) ds
    /\ decimal_value ds = u
    /\ 0 < len ds
    /\ u < 10 ^ len ds
    /\ (len ds = 1 \/ 10 ^ (len ds - 1) <= u).
Proof.
  intros Hu.
  assert (Hb : 0 <= u < 10 ^ Z.of_nat 20) by (unfold max_int in Hu; simpl; lia).
  destruct (fmt_digits_spec 19 u [] Hb) as (ds & E & Hd & Hv & Hpos & Hub & Hlb).
  rewrite app_nil_r in E. exists ds. conjuncts; try assumption.
  rewrite decimal_value_fold, Hv. lia.
Qed.

(** ** Hexadecimal text *)

Lemma DecodeString_pair (p q : byte) (rest : list byte) :
  hex.DecodeString (p :: q :: rest) =
  if 15 <? hex.reverseHexTable p then ([], Some (hex.InvalidByteError p))
  else if 15 <? hex.reverseHexTable q then ([], Some (hex.InvalidByteError q))
  else
    let '(dst, err) := hex.DecodeString rest in
    (byte_of_Z (Z.lor (Z.shiftl (hex.reverseHexTable p) 4)
                      (hex.reverseHexTable q)) :: dst, err).
Proof. reflexivity. Qed.

(** The two upper-case characters [%X] writes for a byte decode to it. *)
Lemma upper_pair_decodes (c : byte) :
  hex.DecodeString
    [hex.hexchar fmt.udigits (Z.shiftr (byte_to_Z c) 4);
     hex.hexchar fmt.udigits (Z.land (byte_to_Z c) 15)] = ([c], None).
Proof. destruct c; vm_compute; reflexivity. Qed.

Lemma DecodeString_SprintfX (s : list byte) :
  hex.DecodeString (fmt.SprintfX s) = (s, None).
Proof.
  induction s as [|c s IH]; [reflexivity|].
  change (fmt.SprintfX (c :: s))
    with (hex.hexchar fmt.udigits (Z.shiftr (byte_to_Z c) 4)
          :: hex.hexchar fmt.udigits (Z.land (byte_to_Z c) 15)
          :: fmt.SprintfX s).
  pose proof (upper_pair_decodes c) as Hc.
  rewrite DecodeString_pair in Hc |- *.
  destruct (15 <? hex.reverseHexTable _); [discriminate Hc|].
  destruct (15 <? hex.reverseHexTable _); [discriminate Hc|].
  rewrite IH.
  change (hex.DecodeString []) with (@nil byte, @None hex.error) in Hc.
  cbv beta iota in Hc |- *. injection Hc as Hc.
  f_equal. f_equal. exact Hc.
Qed.

(** The A4E branch of [Encode] returns the text of [%04d], each character
    one byte. *)
Lemma Encode_A4E (length : Z) :
  0 <= length -> Encode MLIA4E length = Done (fmt.Sprintf04d length, None).
Proof.
  intros H. rewrite (Encode_nonneg _ _ H).
  transitivity
    (let '(b, _) := hex.DecodeString (fmt.SprintfX (fmt.Sprintf04d length)) in
     @Done (list byte * option error) (b, None)); [reflexivity|].
  rewrite DecodeString_SprintfX. reflexivity.
Qed.

(** ** A4E lengths of five digits and more *)

(** [Encode] of 10000 with selector A4E returns the five bytes of "10000"
    and no error of any kind. *)
Lemma Encode_A4E_10000 :
  Encode MLIA4E 10000 = Done (list_byte_of_string "10000", None)
  /\ ~ (exists b e, Encode MLIA4E 10000 = Done (b, Some e)).
Proof.
  split; [reflexivity|].
  intros (b & e & H). vm_compute in H. discriminate H.
Qed.

(** ** Decoding A4E *)

Lemma atoi_digit (c : byte) :
  (9 <? (byte_to_Z c - 48) mod 256) = negb (is_digit c)
  /\ (is_digit c = true -> (byte_to_Z c - 48) mod 256 = byte_to_Z c - 48).
Proof.
  pose proof (byte_to_Z_range c) as Hr. unfold is_digit.
  destruct (Z.leb_spec 48 (byte_to_Z c)) as [Hlo|Hlo].
  - rewrite (Z.mod_small (byte_to_Z c - 48)) by lia.
    destruct (Z.leb_spec (byte_to_Z c) 57); destruct (Z.ltb_spec 9 (byte_to_Z c - 48));
      simpl; try lia; auto.
  - assert (E : (byte_to_Z c - 48) mod 256 = byte_to_Z c + 208).
    { symmetry. apply Z.mod_unique with (q := -1); lia. }
    rewrite E. destruct (Z.ltb_spec 9 (byte_to_Z c + 208)); [|lia].
    simpl. split; [reflexivity | discriminate].
Qed.

(** The fast path of [Atoi] reads a string of digits as the number it
    denotes and stops at any other byte. *)
Lemma atoi_loop_spec (s : list byte) :
  forall n,
    strconv.atoi_loop s n =
    if forallb is_digit s then Some (fold_left decimal_step s n) else None.
Proof.
  induction s as [|c s IH]; intros n; [reflexivity|].
  simpl. destruct (atoi_digit c) as [Hgt Hval]. rewrite Hgt.
  destruct (is_digit c) eqn:Ec; simpl; [|reflexivity].
  rewrite IH, Hval by reflexivity. reflexivity.
Qed.

Lemma digit_not_sign (c : byte) :
  is_digit c = true ->
  strconv.is_sign c = false /\ Byte.eqb c "-"%byte = false.
Proof. destruct c; vm_compute; intros H; try discriminate H; auto. Qed.

Lemma count_zero_4 (b0 b1 b2 b3 : byte) :
  (Z.of_nat (bytes.Count [b0; b1; b2; b3] "0"%byte) =? 4)
  = forallb (Byte.eqb "0"%byte) [b0; b1; b2; b3].
Proof.
  unfold bytes.Count. simpl.
  destruct (Byte.eqb "0" b0), (Byte.eqb "0" b1), (Byte.eqb "0" b2),
    (Byte.eqb "0" b3); reflexivity.
Qed.

(** [Decode] of four A4E bytes the first of which is no sign: the number
    the bytes denote when all four are digits, the syntax error of [Atoi]
    otherwise. *)
Lemma Decode_A4E_unsigned (b : list byte) :
  len b = 4 -> strconv.is_sign (hd x00 b) = false ->
  Decode MLIA4E b =
  if forallb is_digit b then Done (decimal_value b, None)
  else Done (0, Some (ErrDecodeString (strconv.syntaxError "Atoi" b))).
Proof.
  intros Hlen Hsign.
  destruct (len_4_inv b Hlen) as (b0 & b1 & b2 & b3 & ->).
  rewrite Decode_A4E.
  change (negb (len [b0; b1; b2; b3] =? SizeA4E)) with false. cbv iota.
  change (len [b0; b1; b2; b3]) with 4. rewrite count_zero_4.
  destruct (forallb (Byte.eqb "0"%byte) [b0; b1; b2; b3]) eqn:Ez.
  - simpl in Ez.
    repeat match goal with
           | H : _ && _ = true |- _ => apply andb_prop in H; destruct H
           | H : Byte.eqb _ _ = true |- _ => apply Byte.byte_dec_bl in H; subst
           end.
    reflexivity.
  - simpl in Hsign.
    unfold unsafeByteToStr, strconv.Atoi.
    change (Nat.ltb 0 (List.length [b0; b1; b2; b3])
            && Nat.ltb (List.length [b0; b1; b2; b3]) 19)%bool with true.
    cbv iota. rewrite Hsign. rewrite atoi_loop_spec.
    destruct (forallb is_digit [b0; b1; b2; b3]) eqn:Ed; [|reflexivity].
    simpl in Ed. apply andb_prop in Ed. destruct Ed as [E0 _].
    destruct (digit_not_sign b0 E0) as [_ Hm]. rewrite Hm. reflexivity.
Qed.

(** [Atoi] takes a sign before the digits, so [Decode] does for A4E. *)
Lemma Decode_A4E_sign (c b1 b2 b3 : byte) :
  strconv.is_sign c = true ->
  Z.of_nat (bytes.Count [c; b1; b2; b3] "0"%byte) <> 4 ->
  forallb is_digit [b1; b2; b3] = true ->
  Decode MLIA4E [c; b1; b2; b3] =
  Done (if Byte.eqb c "-"%byte then - decimal_value [b1; b2; b3]
        else decimal_value [b1; b2; b3], None).
Proof.
  intros Hsign Hz Hd. rewrite Decode_A4E.
  change (negb (len [c; b1; b2; b3] =? SizeA4E)) with false. cbv iota.
  change (len [c; b1; b2; b3]) with 4.
  destruct (Z.eqb_spec (Z.of_nat (bytes.Count [c; b1; b2; b3] "0"%byte)) 4);
    [contradiction|].
  unfold unsafeByteToStr, strconv.Atoi.
  change (Nat.ltb 0 (List.length [c; b1; b2; b3])
          && Nat.ltb (List.length [c; b1; b2; b3]) 19)%bool with true.
  cbv iota. rewrite Hsign. rewrite atoi_loop_spec, Hd. reflexivity.
Qed.

(** C2 fails on A4E. The bytes "-123" are no length, yet [Decode] returns
    -123 and no error: the A4E branch has no test for a negative result,
    which the branches 2I, 4I and 2BCD2 answer with [ErrLength]. *)
Theorem Decode_A4E_negative :
  Decode MLIA4E (list_byte_of_string "-123") = Done (-123, None).
Proof. reflexivity. Qed.

(** C3 fails on a leading sign. The bytes "+123" and "-123" are not
    four decimal digits, yet [Decode] returns a number and no error. *)
Theorem Decode_A4E_accepts_sign :
  forallb is_digit (list_byte_of_string "+123") = false
  /\ Decode MLIA4E (list_byte_of_string "+123") = Done (123, None)
  /\ forallb is_digit (list_byte_of_string "-123") = false
  /\ Decode MLIA4E (list_byte_of_string "-123") = Done (-123, None).
Proof. conjuncts; reflexivity. Qed.

(** Away from A4E a decoded length is never negative. *)
Lemma Decode_nonneg_but_A4E (key : string) (b : list byte) (n : Z) :
  key <> MLIA4E -> Decode key b = Done (n, None) -> 0 <= n.
Proof.
  intros Hk H. unfold Decode in H.
  repeat match type of H with
         | (if String.eqb key ?k then _ else _) = _ =>
             destruct (String.eqb_spec key k); [subst key | ]
         end;
    try contradiction; try discriminate H.
  - destruct (negb _); [discriminate|].
    destruct (binary.Uint16 b) as [u|] eqn:Eu; [|discriminate]. simpl in H.
    destruct (_ =? 0); [injection H as <-; lia|].
    destruct (Z.ltb_spec (int_sub (int_of_uint u) Size2I) 0); [discriminate|].
    injection H as <-. assumption.
  - destruct (negb _); [discriminate|].
    destruct (binary.Uint16 b) as [u|] eqn:Eu; [|discriminate]. simpl in H.
    apply Uint16_range in Eu. injection H as <-.
    unfold int_of_uint. rewrite int_wrap_small; unfold min_int, max_int; lia.
  - destruct (negb _); [discriminate|].
    destruct (binary.Uint32 b) as [u|] eqn:Eu; [|discriminate]. simpl in H.
    destruct (_ =? 0); [injection H as <-; lia|].
    destruct (Z.ltb_spec (int_sub (int_of_uint u) Size4I) 0); [discriminate|].
    injection H as <-. assumption.
  - destruct (negb _); [discriminate|].
    destruct (binary.Uint32 b) as [u|] eqn:Eu; [|discriminate]. simpl in H.
    apply Uint32_range in Eu. injection H as <-.
    unfold int_of_uint. rewrite int_wrap_small; unfold min_int, max_int; lia.
  - destruct (negb _); [discriminate|].
    destruct (binary.Uint16 b) as [u|] eqn:Eu; [|discriminate]. simpl in H.
    apply Uint16_range in Eu. injection H as <-.
    unfold int_add, int_of_uint.
    rewrite (int_wrap_small u) by (unfold min_int, max_int; lia).
    rewrite int_wrap_small; unfold min_int, max_int; lia.
  - destruct (negb _); [discriminate|].
    destruct (slice b 2 4) as [bcd|]; [|discriminate]. unfold bind in H.
    destruct (strconv.Atoi _) as [m [e|]]; [discriminate|].
    destruct (_ =? 0); [injection H as <-; lia|].
    destruct (Z.ltb_spec (int_sub m Size2BCD2) 0); [discriminate|].
    injection H as <-. assumption.
Qed.

(** ** Round trip and fixed width *)

Ltac eval_keys :=
  repeat match goal with
         | |- context [String.eqb ?a ?b] =>
             let v := eval vm_compute in (String.eqb a b) in
             change (String.eqb a b) with v
         end;
  cbv iota.

Lemma Uint16_bytes (v : Z) :
  binary.Uint16 [byte_of_Z (v / 256); byte_of_Z v] = Done (v mod 2 ^ 16).
Proof.
  pose proof (Uint16_PutUint16 v) as H. rewrite PutUint16_make in H. exact H.
Qed.

Lemma Uint32_bytes (v : Z) :
  binary.Uint32 [byte_of_Z (v / 16777216); byte_of_Z (v / 65536);
                 byte_of_Z (v / 256); byte_of_Z v] = Done (v mod 2 ^ 32).
Proof.
  pose proof (Uint32_PutUint32 v) as H. rewrite PutUint32_make in H. exact H.
Qed.

Lemma put_get_16 (x v : Z) :
  x mod 2 ^ 16 = v ->
  exists b, binary.PutUint16 (make 2) (uint16 x) = Done b
            /\ len b = 2 /\ binary.Uint16 b = Done v.
Proof.
  intros <-. rewrite PutUint16_make. eexists.
  split; [reflexivity|]. split; [reflexivity|].
  rewrite Uint16_bytes. unfold uint16. rewrite Z.mod_mod by lia. reflexivity.
Qed.

Lemma put_get_32 (x v : Z) :
  x mod 2 ^ 32 = v ->
  exists b, binary.PutUint32 (make 4) (uint32 x) = Done b
            /\ len b = 4 /\ binary.Uint32 b = Done v.
Proof.
  intros <-. rewrite PutUint32_make. eexists.
  split; [reflexivity|]. split; [reflexivity|].
  rewrite Uint32_bytes. unfold uint32. rewrite Z.mod_mod by lia. reflexivity.
Qed.

Lemma roundtrips_spec (key : string) (length : Z) :
  roundtrips key length = true ->
  exists b, Encode key length = Done (b, None)
            /\ len b = width key /\ Decode key b = Done (length, None).
Proof.
  unfold roundtrips. intros H.
  destruct (Encode key length) as [[b [e|]]|]; try discriminate H.
  apply andb_prop in H. destruct H as [Hl Hd].
  exists b. split; [reflexivity|]. split; [apply Z.eqb_eq; exact Hl|].
  destruct (Decode key b) as [[n [e|]]|]; try discriminate Hd.
  apply Z.eqb_eq in Hd. subst n. reflexivity.
Qed.

Lemma below_spec (n : Z) (P : Z -> bool) :
  below n P = true -> forall z, 0 <= z < n -> P z = true.
Proof.
  unfold below. intros H z Hz.
  rewrite forallb_forall in H. apply H.
  apply in_map_iff. exists (Z.to_nat z). split; [lia|].
  apply in_seq. lia.
Qed.

(** The two text variants have ten thousand lengths or fewer in range. *)
Lemma roundtrips_2BCD2 (length : Z) :
  0 <= length <= 9995 -> roundtrips MLI2BCD2 length = true.
Proof.
  intros H. apply (below_spec 9996); [vm_compute; reflexivity | lia].
Qed.

Lemma roundtrips_A4E (length : Z) :
  0 <= length <= 9999 -> roundtrips MLIA4E length = true.
Proof.
  intros H. apply (below_spec 10000); [vm_compute; reflexivity | lia].
Qed.

Ltac eval_capacity H :=
  unfold representable in H;
  match type of H with
  | _ /\ _ <= written ?k _ <= capacity ?k =>
      let c := eval vm_compute in (capacity k) in
      change (capacity k) with c in H;
      unfold written in H;
      repeat match type of H with
             | context [String.eqb ?a ?b] =>
                 let v := eval vm_compute in (String.eqb a b) in
                 change (String.eqb a b) with v in H
             end;
      cbv iota in H;
      unfold Size2I, Size4I, Size2EE, Size2BCD2 in H
  end.

Lemma Encode_Decode (key : string) (length : Z) :
  In key selectors -> representable key length ->
  exists b, Encode key length = Done (b, None)
            /\ len b = width key /\ Decode key b = Done (length, None).
Proof.
  intros Hk Hr. unfold selectors in Hk.
  each_selector Hk; eval_capacity Hr; destruct Hr as [H0 Hw].
  - (* 2I *)
    rewrite (Encode_nonneg _ _ H0). eval_keys.
    destruct (put_get_16 (int_add length Size2I) (length + 2))
      as (b & E & Hl & Hu).
    { unfold int_add, Size2I. rewrite int_wrap_mod by lia.
      apply Z.mod_small. lia. }
    exists b. rewrite E. split; [reflexivity|]. split; [exact Hl|].
    rewrite Decode_2I, Hl, Hu.
    change (negb (2 =? Size2I)) with false. cbv iota. unfold bind.
    unfold int_of_uint, int_sub, Size2I.
    rewrite (int_wrap_small (length + 2)) by (unfold min_int, max_int; lia).
    rewrite int_wrap_small by (unfold min_int, max_int; lia).
    destruct (Z.eqb_spec (length + 2) 0); [lia|].
    destruct (Z.ltb_spec (length + 2 - 2) 0); [lia|].
    do 2 f_equal. lia.
  - (* 2E *)
    rewrite (Encode_nonneg _ _ H0). eval_keys.
    destruct (put_get_16 length length) as (b & E & Hl & Hu).
    { apply Z.mod_small. lia. }
    exists b. rewrite E. split; [reflexivity|]. split; [exact Hl|].
    rewrite Decode_2E, Hl, Hu.
    change (negb (2 =? Size2E)) with false. cbv iota. unfold bind.
    unfold int_of_uint.
    rewrite int_wrap_small by (unfold min_int, max_int; lia). reflexivity.
  - (* 4I *)
    rewrite (Encode_nonneg _ _ H0). eval_keys.
    destruct (put_get_32 (int_add length Size4I) (length + 4))
      as (b & E & Hl & Hu).
    { unfold int_add, Size4I. rewrite int_wrap_mod by lia.
      apply Z.mod_small. lia. }
    exists b. rewrite E. split; [reflexivity|]. split; [exact Hl|].
    rewrite Decode_4I, Hl, Hu.
    change (negb (4 =? Size4I)) with false. cbv iota. unfold bind.
    unfold int_of_uint, int_sub, Size4I.
    rewrite (int_wrap_small (length + 4)) by (unfold min_int, max_int; lia).
    rewrite int_wrap_small by (unfold min_int, max_int; lia).
    destruct (Z.eqb_spec (length + 4) 0); [lia|].
    destruct (Z.ltb_spec (length + 4 - 4) 0); [lia|].
    do 2 f_equal. lia.
  - (* 4E *)
    rewrite (Encode_nonneg _ _ H0). eval_keys.
    destruct (put_get_32 length length) as (b & E & Hl & Hu).
    { apply Z.mod_small. lia. }
    exists b. rewrite E. split; [reflexivity|]. split; [exact Hl|].
    rewrite Decode_4E, Hl, Hu.
    change (negb (4 =? Size4E)) with false. cbv iota. unfold bind.
    unfold int_of_uint.
    rewrite int_wrap_small by (unfold min_int, max_int; lia). reflexivity.
  - (* 2EE *)
    rewrite (Encode_nonneg _ _ H0). eval_keys.
    destruct (put_get_16 (int_sub length Size2EE) (length - 2))
      as (b & E & Hl & Hu).
    { unfold int_sub, Size2EE. rewrite int_wrap_mod by lia.
      apply Z.mod_small. lia. }
    exists b. rewrite E. split; [reflexivity|]. split; [exact Hl|].
    rewrite Decode_2EE, Hl, Hu.
    change (negb (2 =? Size2EE)) with false. cbv iota. unfold bind.
    unfold int_of_uint, int_add.
    rewrite (int_wrap_small (length - 2)) by (unfold min_int, max_int; lia).
    rewrite int_wrap_small by (unfold min_int, max_int; lia).
    do 2 f_equal. lia.
  - (* 2BCD2 *)
    apply roundtrips_spec, roundtrips_2BCD2. lia.
  - (* A4E *)
    apply roundtrips_spec, roundtrips_A4E. lia.
Qed.

(** C1. For each of the seven selectors and each length in the variant's
    representable range, [Encode] returns a buffer and no error, and
    [Decode] of that buffer returns the length and no error. *)
Theorem Decode_Encode_roundtrip (key : string) (length : Z) :
  In key selectors -> representable key length ->
  exists b, Encode key length = Done (b, None)
            /\ Decode key b = Done (length, None).
Proof.
  intros Hk Hr.
  destruct (Encode_Decode key length Hk Hr) as (b & E & _ & D).
  exists b. split; assumption.
Qed.

Lemma Decode_Encode_roundtrip_witness :
  In MLI2BCD2 selectors /\ representable MLI2BCD2 284
  /\ exists b, Encode MLI2BCD2 284 = Done (b, None)
               /\ Decode MLI2BCD2 b = Done (284, None).
Proof.
  assert (Hk : In MLI2BCD2 selectors) by (simpl; auto 8).
  assert (Hr : representable MLI2BCD2 284) by (vm_compute; intuition discriminate).
  split; [exact Hk|]. split; [exact Hr|].
  exact (Decode_Encode_roundtrip MLI2BCD2 284 Hk Hr).
Defined.

(** C8. For each of the seven selectors and each length in the variant's
    representable range, [Encode] returns no error and a buffer whose
    length is the variant's width: two bytes for 2I, 2E and 2EE, four for
    4I, 4E, 2BCD2 and A4E. *)
Theorem Encode_fixed_width (key : string) (length : Z) :
  In key selectors -> representable key length ->
  exists b, Encode key length = Done (b, None) /\ len b = width key.
Proof.
  intros Hk Hr.
  destruct (Encode_Decode key length Hk Hr) as (b & E & Hl & _).
  exists b. split; assumption.
Qed.

Lemma Encode_fixed_width_witness :
  In MLIA4E selectors /\ representable MLIA4E 43
  /\ exists b, Encode MLIA4E 43 = Done (b, None) /\ len b = width MLIA4E.
Proof.
  assert (Hk : In MLIA4E selectors) by (simpl; auto 8).
  assert (Hr : representable MLIA4E 43) by (vm_compute; intuition discriminate).
  split; [exact Hk|]. split; [exact Hr|].
  exact (Encode_fixed_width MLIA4E 43 Hk Hr).
Defined.

Example width_table :
  map width selectors = [2; 2; 4; 4; 2; 4; 4].
Proof. reflexivity. Qed.

(** The representable range is sharp: one past it the length does not come
    back. *)

Example roundtrip_2I_65534 :
  Encode MLI2I 65534 = Done ([x00; x00], None)
  /\ Decode MLI2I [x00; x00] = Done (0, None).
Proof. split; reflexivity. Qed.

Example roundtrip_2EE_0 :
  Encode MLI2EE 0 = Done ([xff; xfe], None)
  /\ Decode MLI2EE [xff; xfe] = Done (65536, None).
Proof. split; reflexivity. Qed.

Example Encode_2BCD2_9996 :
  Encode MLI2BCD2 9996 = Done (empty, Some (ErrEncodeHex hex.ErrLength)).
Proof. reflexivity. Qed.

Example roundtrip_A4E_10000 :
  Decode MLIA4E (list_byte_of_string "10000") = Done (0, Some ErrByteSize).
Proof. reflexivity. Qed.

(** ** No panic *)

Ltac returns_by_cases :=
  repeat match goal with
         | |- exists r, (if ?c then _ else _) = _ => destruct c
         | |- exists r, match ?c with _ => _ end = _ => destruct c
         end;
  eexists; reflexivity.

(** [Decode] reads a buffer only after the size test, so no index is out
    of range: it returns for every key and every buffer. *)
Lemma Decode_returns (key : string) (b : list byte) :
  exists r, Decode key b = Done r.
Proof.
  unfold Decode.
  repeat match goal with
         | |- exists r, (if String.eqb key ?k then _ else _) = _ =>
             destruct (String.eqb key k)
         end;
    try (eexists; reflexivity);
    match goal with
    | |- exists r, (if negb (len b =? ?w) then _ else _) = _ =>
        destruct (Z.eqb_spec (len b) w) as [Hl|Hl];
        [cbv [negb] | eexists; reflexivity]
    end;
    try (apply len_2_inv in Hl; destruct Hl as (b0 & b1 & ->));
    try (apply len_4_inv in Hl; destruct Hl as (b0 & b1 & b2 & b3 & ->));
    unfold bind, binary.Uint16, binary.Uint32, slice;
    try change (Nat.leb 2 4 && Nat.leb 4 (List.length [b0; b1; b2; b3]))%bool
      with true;
    cbv iota; returns_by_cases.
Qed.

(** [Encode] writes into buffers it has made long enough. *)
Lemma Encode_returns (key : string) (length : Z) :
  exists r, Encode key length = Done r.
Proof.
  unfold Encode.
  destruct (length <? 0); [eexists; reflexivity|].
  repeat match goal with
         | |- exists r, (if String.eqb key ?k then _ else _) = _ =>
             destruct (String.eqb key k)
         end;
    returns_by_cases.
Qed.

(** * Further properties of [Decode] and [Encode] *)

(** ** The branches of [Decode], by the value of the buffer *)

(** A length comes back with no error only from a buffer of the width of
    the variant. *)
Lemma Decode_checks_size (key : string) (b : list byte) (n : Z) :
  In key selectors -> Decode key b = Done (n, None) -> len b = width key.
Proof.
  intros Hk H. unfold selectors in Hk.
  each_selector Hk;
    match goal with
    | |- len b = width ?k =>
        let w := eval compute in (width k) in change (width k) with w
    end.
  - rewrite Decode_2I in H.
    destruct (Z.eqb_spec (len b) Size2I); [assumption | discriminate H].
  - rewrite Decode_2E in H.
    destruct (Z.eqb_spec (len b) Size2E); [assumption | discriminate H].
  - rewrite Decode_4I in H.
    destruct (Z.eqb_spec (len b) Size4I); [assumption | discriminate H].
  - rewrite Decode_4E in H.
    destruct (Z.eqb_spec (len b) Size4E); [assumption | discriminate H].
  - rewrite Decode_2EE in H.
    destruct (Z.eqb_spec (len b) Size2EE); [assumption | discriminate H].
  - rewrite Decode_2BCD2 in H.
    destruct (Z.eqb_spec (len b) Size2BCD2); [assumption | discriminate H].
  - rewrite Decode_A4E in H.
    destruct (Z.eqb_spec (len b) SizeA4E); [assumption | discriminate H].
Qed.

Lemma Decode_2I_eq (b0 b1 : byte) :
  Decode MLI2I [b0; b1] =
  if big_endian [b0; b1] =? 0 then Done (0, None)
  else if big_endian [b0; b1] <? 2 then Done (0, Some ErrLength)
  else Done (big_endian [b0; b1] - 2, None).
Proof.
  rewrite Decode_2I. change (negb (len [b0; b1] =? Size2I)) with false.
  cbv iota. rewrite Uint16_value. unfold bind. rewrite big_endian_2.
  pose proof (byte_to_Z_range b0). pose proof (byte_to_Z_range b1).
  set (raw := byte_to_Z b0 * 256 + byte_to_Z b1) in *.
  unfold int_of_uint, int_sub, Size2I.
  rewrite (int_wrap_small raw) by (unfold min_int, max_int; lia).
  rewrite (int_wrap_small (raw - 2)) by (unfold min_int, max_int; lia).
  destruct (Z.eqb_spec raw 0); [reflexivity|].
  destruct (Z.ltb_spec (raw - 2) 0); destruct (Z.ltb_spec raw 2);
    try lia; reflexivity.
Qed.

Lemma Decode_4I_eq (b0 b1 b2 b3 : byte) :
  Decode MLI4I [b0; b1; b2; b3] =
  if big_endian [b0; b1; b2; b3] =? 0 then Done (0, None)
  else if big_endian [b0; b1; b2; b3] <? 4 then Done (0, Some ErrLength)
  else Done (big_endian [b0; b1; b2; b3] - 4, None).
Proof.
  rewrite Decode_4I. change (negb (len [b0; b1; b2; b3] =? Size4I)) with false.
  cbv iota. rewrite Uint32_value. unfold bind. rewrite big_endian_4.
  pose proof (byte_to_Z_range b0). pose proof (byte_to_Z_range b1).
  pose proof (byte_to_Z_range b2). pose proof (byte_to_Z_range b3).
  set (raw := ((byte_to_Z b0 * 256 + byte_to_Z b1) * 256 + byte_to_Z b2) * 256
              + byte_to_Z b3) in *.
  unfold int_of_uint, int_sub, Size4I.
  rewrite (int_wrap_small raw) by (unfold min_int, max_int; lia).
  rewrite (int_wrap_small (raw - 4)) by (unfold min_int, max_int; lia).
  destruct (Z.eqb_spec raw 0); [reflexivity|].
  destruct (Z.ltb_spec (raw - 4) 0); destruct (Z.ltb_spec raw 4);
    try lia; reflexivity.
Qed.

(** ** Keys outside the seven selectors *)

Lemma not_selector (key : string) :
  ~ In key selectors ->
  String.eqb key MLI2I = false /\ String.eqb key MLI2E = false
  /\ String.eqb key MLI4I = false /\ String.eqb key MLI4E = false
  /\ String.eqb key MLI2EE = false /\ String.eqb key MLI2BCD2 = false
  /\ String.eqb key MLIA4E = false.
Proof.
  intros H. unfold selectors in H.
  conjuncts; apply String.eqb_neq; intros ->; apply H; simpl; auto 8.
Qed.

(** [Decode] with a key that is none of the seven selectors returns the
    invalid-type error and 0, whatever the buffer, the empty one
    included. *)
Theorem Decode_unknown_key (key : string) (b : list byte) :
  ~ In key selectors -> Decode key b = Done (0, Some ErrInvalidType).
Proof.
  intros H.
  destruct (not_selector key H) as (E1 & E2 & E3 & E4 & E5 & E6 & E7).
  unfold Decode. rewrite E1, E2, E3, E4, E5, E6, E7. reflexivity.
Qed.

Lemma bogus_not_selector : ~ In "bogus"%string selectors.
Proof.
  unfold selectors. simpl. intros H.
  repeat (destruct H as [H|H]; [discriminate H|]). exact H.
Defined.

Lemma Decode_unknown_key_witness :
  ~ In "bogus"%string selectors
  /\ Decode "bogus" [x00; x2d] = Done (0, Some ErrInvalidType).
Proof.
  split; [exact bogus_not_selector|].
  exact (Decode_unknown_key "bogus" [x00; x2d] bogus_not_selector).
Defined.

(** [Encode] with a key that is none of the seven selectors and a length
    that is not negative returns the invalid-type error and the empty
    slice. *)
Theorem Encode_unknown_key (key : string) (length : Z) :
  ~ In key selectors -> 0 <= length ->
  Encode key length = Done (empty, Some ErrInvalidType).
Proof.
  intros H H0. rewrite (Encode_nonneg key length H0).
  destruct (not_selector key H) as (E1 & E2 & E3 & E4 & E5 & E6 & E7).
  rewrite E1, E2, E3, E4, E5, E6, E7. reflexivity.
Qed.

Lemma Encode_unknown_key_witness :
  ~ In "bogus"%string selectors /\ 0 <= 7
  /\ Encode "bogus" 7 = Done (empty, Some ErrInvalidType).
Proof.
  assert (H0 : 0 <= 7) by lia.
  split; [exact bogus_not_selector|]. split; [exact H0|].
  exact (Encode_unknown_key "bogus" 7 bogus_not_selector H0).
Defined.

(** ** What an error comes with *)

(** Whenever [Decode] returns an error, the length it returns is 0. *)
Theorem Decode_error_zero (key : string) (b : list byte) (n : Z) (e : error) :
  Decode key b = Done (n, Some e) -> n = 0.
Proof.
  unfold Decode. intros H.
  repeat match type of H with
         | (if ?c then _ else _) = _ => destruct c
         | bind ?c _ = _ => destruct c; unfold bind in H
         | match ?c with _ => _ end = _ => destruct c
         end;
    try discriminate H; injection H as <- _; reflexivity.
Qed.

Lemma Decode_error_zero_witness :
  Decode MLI2I [x00; x01] = Done (0, Some ErrLength) /\ 0 = 0.
Proof.
  assert (H : Decode MLI2I [x00; x01] = Done (0, Some ErrLength)) by reflexivity.
  split; [exact H|].
  exact (Decode_error_zero MLI2I [x00; x01] 0 ErrLength H).
Defined.

(** Whenever [Encode] returns an error, the slice it returns is [empty]. *)
Theorem Encode_error_empty (key : string) (length : Z) (b : list byte)
  (e : error) :
  Encode key length = Done (b, Some e) -> b = empty.
Proof.
  unfold Encode. intros H.
  repeat match type of H with
         | (if ?c then _ else _) = _ => destruct c
         | bind ?c _ = _ => destruct c; unfold bind in H
         | match ?c with _ => _ end = _ => destruct c
         end;
    try discriminate H; injection H as <- _; reflexivity.
Qed.

Lemma Encode_error_empty_witness :
  Encode MLI2BCD2 9996 = Done ([], Some (ErrEncodeHex hex.ErrLength))
  /\ @nil byte = empty.
Proof.
  assert (H : Encode MLI2BCD2 9996 = Done ([], Some (ErrEncodeHex hex.ErrLength)))
    by reflexivity.
  split; [exact H|].
  exact (Encode_error_empty MLI2BCD2 9996 [] (ErrEncodeHex hex.ErrLength) H).
Defined.


(** ** Exclusive indicators *)

Lemma Decode_exclusive_eq (key : string) (b : list byte) :
  In key [MLI2E; MLI4E] -> len b = width key ->
  Decode key b = Done (big_endian b, None).
Proof.
  intros Hk Hlen. each_selector Hk.
  - change (width MLI2E) with 2 in Hlen.
    destruct (len_2_inv b Hlen) as (b0 & b1 & ->).
    rewrite Decode_2E. change (negb (len [b0; b1] =? Size2E)) with false.
    cbv iota. rewrite Uint16_value, big_endian_2. unfold bind, int_of_uint.
    pose proof (byte_to_Z_range b0). pose proof (byte_to_Z_range b1).
    rewrite int_wrap_small by (unfold min_int, max_int; lia). reflexivity.
  - change (width MLI4E) with 4 in Hlen.
    destruct (len_4_inv b Hlen) as (b0 & b1 & b2 & b3 & ->).
    rewrite Decode_4E. change (negb (len [b0; b1; b2; b3] =? Size4E)) with false.
    cbv iota. rewrite Uint32_value, big_endian_4. unfold bind, int_of_uint.
    pose proof (byte_to_Z_range b0). pose proof (byte_to_Z_range b1).
    pose proof (byte_to_Z_range b2). pose proof (byte_to_Z_range b3).
    rewrite int_wrap_small by (unfold min_int, max_int; lia). reflexivity.
Qed.

(** [Decode] of a 2E (4E) buffer of two (four) bytes returns the unsigned
    value the buffer holds in network byte order, and never an error. *)
Theorem Decode_exclusive (key : string) (b : list byte) :
  In key [MLI2E; MLI4E] -> len b = width key ->
  Decode key b = Done (big_endian b, None).
Proof. intros; eapply Decode_exclusive_eq; eassumption. Qed.

Lemma Decode_exclusive_witness :
  In MLI4E [MLI2E; MLI4E] /\ len [x00; x00; x00; x22] = width MLI4E
  /\ Decode MLI4E [x00; x00; x00; x22] = Done (34, None).
Proof.
  assert (Hk : In MLI4E [MLI2E; MLI4E]) by (simpl; auto).
  assert (Hl : len [x00; x00; x00; x22] = width MLI4E) by reflexivity.
  split; [exact Hk|]. split; [exact Hl|].
  exact (Decode_exclusive MLI4E [x00; x00; x00; x22] Hk Hl).
Defined.

Lemma Decode_2EE_eq (b : list byte) :
  len b = 2 ->
  Decode MLI2EE b = Done (big_endian b + 2, None)
  /\ 2 <= big_endian b + 2 <= 65537.
Proof.
  intros Hlen. destruct (len_2_inv b Hlen) as (b0 & b1 & ->).
  rewrite Decode_2EE. change (negb (len [b0; b1] =? Size2EE)) with false.
  cbv iota. rewrite Uint16_value, big_endian_2. unfold bind, int_of_uint, int_add.
  pose proof (byte_to_Z_range b0). pose proof (byte_to_Z_range b1).
  rewrite (int_wrap_small (_ + byte_to_Z b1)) by (unfold min_int, max_int; lia).
  rewrite int_wrap_small by (unfold min_int, max_int; lia).
  split; [reflexivity | lia].
Qed.

(** [Decode] of a 2EE buffer of two bytes returns the unsigned value the
    buffer holds plus the two bytes of the embedded header, and never an
    error: the result lies between 2 and 65537. *)
Theorem Decode_2EE_value (b : list byte) :
  len b = 2 ->
  Decode MLI2EE b = Done (big_endian b + 2, None)
  /\ 2 <= big_endian b + 2 <= 65537.
Proof. intros; eapply Decode_2EE_eq; eassumption. Qed.

Lemma Decode_2EE_value_witness :
  len [xff; xff] = 2
  /\ Decode MLI2EE [xff; xff] = Done (big_endian [xff; xff] + 2, None)
  /\ 2 <= big_endian [xff; xff] + 2 <= 65537.
Proof.
  assert (Hl : len [xff; xff] = 2) by reflexivity.
  split; [exact Hl | exact (Decode_2EE_value [xff; xff] Hl)].
Defined.

(** ** Encoding what was decoded *)

Lemma bytes_of_value_16 (b0 b1 : byte) :
  let v := byte_to_Z b0 * 256 + byte_to_Z b1 in
  [byte_of_Z (v / 256); byte_of_Z v] = [b0; b1].
Proof.
  intros v. subst v.
  pose proof (byte_to_Z_range b0). pose proof (byte_to_Z_range b1).
  f_equal; [|f_equal]; apply byte_to_Z_inj; rewrite byte_to_of_Z.
  - rewrite Z.div_add_l by lia. rewrite (Z.div_small (byte_to_Z b1)) by lia.
    rewrite Z.add_0_r. apply Z.mod_small. lia.
  - rewrite Z.add_comm, Z.mod_add by lia. apply Z.mod_small. lia.
Qed.

Lemma bytes_of_value_32 (b0 b1 b2 b3 : byte) :
  let v := ((byte_to_Z b0 * 256 + byte_to_Z b1) * 256 + byte_to_Z b2) * 256
           + byte_to_Z b3 in
  [byte_of_Z (v / 16777216); byte_of_Z (v / 65536); byte_of_Z (v / 256);
   byte_of_Z v] = [b0; b1; b2; b3].
Proof.
  intros v. subst v.
  pose proof (byte_to_Z_range b0). pose proof (byte_to_Z_range b1).
  pose proof (byte_to_Z_range b2). pose proof (byte_to_Z_range b3).
  set (v := ((byte_to_Z b0 * 256 + byte_to_Z b1) * 256 + byte_to_Z b2) * 256
            + byte_to_Z b3).
  assert (E3 : v / 256 = (byte_to_Z b0 * 256 + byte_to_Z b1) * 256 + byte_to_Z b2).
  { unfold v. rewrite Z.div_add_l by lia.
    rewrite (Z.div_small (byte_to_Z b3)) by lia. lia. }
  assert (E2 : v / 65536 = byte_to_Z b0 * 256 + byte_to_Z b1).
  { change 65536 with (256 * 256). rewrite <- Z.div_div by lia. rewrite E3.
    rewrite Z.div_add_l by lia.
    rewrite (Z.div_small (byte_to_Z b2)) by lia. lia. }
  assert (E1 : v / 16777216 = byte_to_Z b0).
  { change 16777216 with (65536 * 256). rewrite <- Z.div_div by lia.
    rewrite E2. rewrite Z.div_add_l by lia.
    rewrite (Z.div_small (byte_to_Z b1)) by lia. lia. }
  rewrite E1, E2, E3.
  repeat f_equal; apply byte_to_Z_inj; rewrite byte_to_of_Z.
  - apply Z.mod_small. lia.
  - rewrite Z.add_comm, Z.mod_add by lia. apply Z.mod_small. lia.
  - rewrite Z.add_comm, Z.mod_add by lia. apply Z.mod_small. lia.
  - unfold v. rewrite Z.add_comm, Z.mod_add by lia. apply Z.mod_small. lia.
Qed.

(** For 2E, 4E and 2EE every buffer of the variant's width is the encoding
    of the length it decodes to: [Encode] undoes [Decode], so no two
    buffers decode to one length. *)
Theorem Encode_Decode_exclusive (key : string) (b : list byte) :
  In key [MLI2E; MLI4E; MLI2EE] -> len b = width key ->
  exists n, Decode key b = Done (n, None) /\ Encode key n = Done (b, None).
Proof.
  intros Hk Hlen. each_selector Hk.
  - rewrite (Decode_exclusive_eq MLI2E b) by (simpl; auto).
    eexists. split; [reflexivity|].
    change (width MLI2E) with 2 in Hlen.
    destruct (len_2_inv b Hlen) as (b0 & b1 & ->).
    rewrite big_endian_2.
    pose proof (byte_to_Z_range b0). pose proof (byte_to_Z_range b1).
    rewrite Encode_nonneg by lia. eval_keys.
    rewrite PutUint16_make. unfold bind, uint16.
    rewrite Z.mod_small by (change (2 ^ 16) with 65536; lia).
    rewrite (bytes_of_value_16 b0 b1). reflexivity.
  - rewrite (Decode_exclusive_eq MLI4E b) by (simpl; auto).
    eexists. split; [reflexivity|].
    change (width MLI4E) with 4 in Hlen.
    destruct (len_4_inv b Hlen) as (b0 & b1 & b2 & b3 & ->).
    rewrite big_endian_4.
    pose proof (byte_to_Z_range b0). pose proof (byte_to_Z_range b1).
    pose proof (byte_to_Z_range b2). pose proof (byte_to_Z_range b3).
    rewrite Encode_nonneg by lia. eval_keys.
    rewrite PutUint32_make. unfold bind, uint32.
    rewrite Z.mod_small by (change (2 ^ 32) with 4294967296; lia).
    rewrite (bytes_of_value_32 b0 b1 b2 b3). reflexivity.
  - change (width MLI2EE) with 2 in Hlen.
    destruct (Decode_2EE_eq b Hlen) as [E _]. rewrite E.
    eexists. split; [reflexivity|].
    destruct (len_2_inv b Hlen) as (b0 & b1 & ->).
    rewrite big_endian_2.
    pose proof (byte_to_Z_range b0). pose proof (byte_to_Z_range b1).
    rewrite Encode_nonneg by lia. eval_keys.
    rewrite PutUint16_make. unfold bind, uint16, int_sub, Size2EE.
    rewrite int_wrap_mod by lia.
    replace (byte_to_Z b0 * 256 + byte_to_Z b1 + 2 - 2)
      with (byte_to_Z b0 * 256 + byte_to_Z b1) by lia.
    rewrite Z.mod_small by (change (2 ^ 16) with 65536; lia).
    rewrite (bytes_of_value_16 b0 b1). reflexivity.
Qed.

Lemma Encode_Decode_exclusive_witness :
  In MLI2EE [MLI2E; MLI4E; MLI2EE] /\ len [xff; xfe] = width MLI2EE
  /\ exists n, Decode MLI2EE [xff; xfe] = Done (n, None)
               /\ Encode MLI2EE n = Done ([xff; xfe], None).
Proof.
  assert (Hk : In MLI2EE [MLI2E; MLI4E; MLI2EE]) by (simpl; auto).
  assert (Hl : len [xff; xfe] = width MLI2EE) by reflexivity.
  split; [exact Hk|]. split; [exact Hl|].
  exact (Encode_Decode_exclusive MLI2EE [xff; xfe] Hk Hl).
Defined.

(** For 2I and 4I a buffer of the variant's width whose value is at least
    the width is the encoding of the length it decodes to. *)
Theorem Encode_Decode_inclusive (key : string) (b : list byte) :
  In key [MLI2I; MLI4I] -> len b = width key -> width key <= big_endian b ->
  Decode key b = Done (big_endian b - width key, None)
  /\ Encode key (big_endian b - width key) = Done (b, None).
Proof.
  intros Hk Hlen Hraw.
  each_selector Hk.
  - change (width MLI2I) with 2 in *.
    destruct (len_2_inv b Hlen) as (b0 & b1 & ->).
    rewrite Decode_2I_eq.
    destruct (Z.eqb_spec (big_endian [b0; b1]) 0); [lia|].
    destruct (Z.ltb_spec (big_endian [b0; b1]) 2); [lia|].
    split; [reflexivity|].
    rewrite big_endian_2 in *.
    pose proof (byte_to_Z_range b0). pose proof (byte_to_Z_range b1).
    rewrite Encode_nonneg by lia. eval_keys.
    rewrite PutUint16_make. unfold bind, uint16, int_add, Size2I.
    rewrite int_wrap_mod by lia.
    replace (byte_to_Z b0 * 256 + byte_to_Z b1 - 2 + 2)
      with (byte_to_Z b0 * 256 + byte_to_Z b1) by lia.
    rewrite Z.mod_small by (change (2 ^ 16) with 65536; lia).
    rewrite (bytes_of_value_16 b0 b1). reflexivity.
  - change (width MLI4I) with 4 in *.
    destruct (len_4_inv b Hlen) as (b0 & b1 & b2 & b3 & ->).
    rewrite Decode_4I_eq.
    destruct (Z.eqb_spec (big_endian [b0; b1; b2; b3]) 0); [lia|].
    destruct (Z.ltb_spec (big_endian [b0; b1; b2; b3]) 4); [lia|].
    split; [reflexivity|].
    rewrite big_endian_4 in *.
    pose proof (byte_to_Z_range b0). pose proof (byte_to_Z_range b1).
    pose proof (byte_to_Z_range b2). pose proof (byte_to_Z_range b3).
    rewrite Encode_nonneg by lia. eval_keys.
    rewrite PutUint32_make. unfold bind, uint32, int_add, Size4I.
    rewrite int_wrap_mod by lia.
    match goal with
    | |- context [?v - 4 + 4] => replace (v - 4 + 4) with v by lia
    end.
    rewrite Z.mod_small by (change (2 ^ 32) with 4294967296; lia).
    rewrite (bytes_of_value_32 b0 b1 b2 b3). reflexivity.
Qed.

Lemma Encode_Decode_inclusive_witness :
  In MLI2I [MLI2I; MLI4I] /\ len [x00; x2d] = width MLI2I
  /\ width MLI2I <= big_endian [x00; x2d]
  /\ Decode MLI2I [x00; x2d]
     = Done (big_endian [x00; x2d] - width MLI2I, None)
  /\ Encode MLI2I (big_endian [x00; x2d] - width MLI2I)
     = Done ([x00; x2d], None).
Proof.
  assert (Hk : In MLI2I [MLI2I; MLI4I]) by (simpl; auto).
  assert (Hl : len [x00; x2d] = width MLI2I) by reflexivity.
  assert (Hr : width MLI2I <= big_endian [x00; x2d]) by (vm_compute; discriminate).
  split; [exact Hk|]. split; [exact Hl|]. split; [exact Hr|].
  exact (Encode_Decode_inclusive MLI2I [x00; x2d] Hk Hl Hr).
Defined.

(** ** Lengths too large for a binary variant *)

Lemma uint16_alias (x y : Z) : x mod 2 ^ 16 = y mod 2 ^ 16 -> uint16 x = uint16 y.
Proof. unfold uint16. auto. Qed.

Lemma uint32_alias (x y : Z) : x mod 2 ^ 32 = y mod 2 ^ 32 -> uint32 x = uint32 y.
Proof. unfold uint32. auto. Qed.

Lemma mod_shift (x m : Z) (c : Z) : m <> 0 -> (x + m + c) mod m = (x + c) mod m.
Proof.
  intros Hm. replace (x + m + c) with (x + c + 1 * m) by lia.
  apply Z.mod_add. exact Hm.
Qed.

(** [Encode] with a binary selector keeps the low 16 (32) bits of the
    adjusted length and nothing else: two lengths 2^16 (2^32) apart are
    encoded alike, with no error. *)
Theorem Encode_binary_aliases (key : string) (length : Z) :
  In key binary_selectors -> 0 <= length ->
  Encode key (length + 2 ^ (8 * width key)) = Encode key length.
Proof.
  intros Hk H0. unfold binary_selectors in Hk.
  each_selector Hk;
    match goal with
    | |- context [2 ^ (8 * width ?k)] =>
        let p := eval vm_compute in (2 ^ (8 * width k)) in
        change (2 ^ (8 * width k)) with p
    end;
    rewrite !Encode_nonneg by lia; eval_keys.
  - f_equal. f_equal. apply uint16_alias. unfold int_add, Size2I.
    rewrite !int_wrap_mod by lia. change 65536 with (2 ^ 16).
    apply mod_shift. lia.
  - f_equal. f_equal. apply uint16_alias. change 65536 with (2 ^ 16).
    replace (length + 2 ^ 16) with (length + 1 * 2 ^ 16) by lia.
    apply Z.mod_add. lia.
  - f_equal. f_equal. apply uint32_alias. unfold int_add, Size4I.
    rewrite !int_wrap_mod by lia. change 4294967296 with (2 ^ 32).
    apply mod_shift. lia.
  - f_equal. f_equal. apply uint32_alias. change 4294967296 with (2 ^ 32).
    replace (length + 2 ^ 32) with (length + 1 * 2 ^ 32) by lia.
    apply Z.mod_add. lia.
  - f_equal. f_equal. apply uint16_alias. unfold int_sub, Size2EE.
    rewrite !int_wrap_mod by lia. change 65536 with (2 ^ 16).
    apply (mod_shift length (2 ^ 16) (-2)). lia.
Qed.

Lemma Encode_binary_aliases_witness :
  In MLI2E binary_selectors /\ 0 <= 43
  /\ Encode MLI2E (43 + 2 ^ (8 * width MLI2E)) = Encode MLI2E 43.
Proof.
  assert (Hk : In MLI2E binary_selectors) by (simpl; auto).
  assert (H0 : 0 <= 43) by lia.
  split; [exact Hk|]. split; [exact H0|].
  exact (Encode_binary_aliases MLI2E 43 Hk H0).
Defined.

(** ** Decoding 2BCD2 *)

(** The character [hex.EncodeToString] writes for a nibble is a decimal
    digit when the nibble is at most 9 and a letter otherwise, never a
    sign. *)
Lemma hextable_nibble (n : Z) :
  0 <= n <= 15 ->
  is_digit (hex.hexchar hex.hextable n) = (n <=? 9)
  /\ strconv.is_sign (hex.hexchar hex.hextable n) = false
  /\ (n <= 9 -> byte_to_Z (hex.hexchar hex.hextable n) - 48 = n).
Proof.
  intros H.
  assert (B : below 16
                (fun n =>
                   Bool.eqb (is_digit (hex.hexchar hex.hextable n)) (n <=? 9)
                   && negb (strconv.is_sign (hex.hexchar hex.hextable n))
                   && ((9 <? n)
                       || (byte_to_Z (hex.hexchar hex.hextable n) - 48 =? n)))
              = true) by (vm_compute; reflexivity).
  pose proof (below_spec 16 _ B n ltac:(lia)) as P. cbv beta in P.
  apply andb_prop in P. destruct P as [P Pv].
  apply andb_prop in P. destruct P as [Pd Ps].
  conjuncts.
  - apply Bool.eqb_prop. exact Pd.
  - apply negb_true_iff. exact Ps.
  - intros Hn. apply orb_prop in Pv. destruct Pv as [Pv|Pv].
    + apply Z.ltb_lt in Pv. lia.
    + apply Z.eqb_eq. exact Pv.
Qed.

Lemma nibbles (x : byte) :
  Z.shiftr (byte_to_Z x) 4 = byte_to_Z x / 16
  /\ Z.land (byte_to_Z x) 15 = byte_to_Z x mod 16
  /\ 0 <= byte_to_Z x / 16 <= 15 /\ 0 <= byte_to_Z x mod 16 <= 15.
Proof.
  pose proof (byte_to_Z_range x) as Hr.
  split; [apply (Z.shiftr_div_pow2 _ 4); lia|].
  split; [apply (Z.land_ones _ 4); lia|].
  pose proof (Z.mod_pos_bound (byte_to_Z x) 16 ltac:(lia)).
  pose proof (Z.div_mod (byte_to_Z x) 16 ltac:(lia)).
  lia.
Qed.

(** [Atoi] of four bytes the first of which is no sign. *)
Lemma Atoi_4_unsigned (c0 c1 c2 c3 : byte) :
  strconv.is_sign c0 = false ->
  strconv.Atoi [c0; c1; c2; c3] =
  if forallb is_digit [c0; c1; c2; c3]
  then (decimal_value [c0; c1; c2; c3], None)
  else (0, Some (strconv.syntaxError "Atoi" [c0; c1; c2; c3])).
Proof.
  intros Hs. unfold strconv.Atoi.
  change (Nat.ltb 0 (List.length [c0; c1; c2; c3])
          && Nat.ltb (List.length [c0; c1; c2; c3]) 19)%bool with true.
  cbv iota. rewrite Hs, atoi_loop_spec.
  destruct (forallb is_digit [c0; c1; c2; c3]); [|reflexivity].
  unfold strconv.is_sign in Hs. apply orb_false_elim in Hs.
  destruct Hs as [Hm _]. rewrite Hm. reflexivity.
Qed.

Lemma Decode_2BCD2_eq (a0 a1 x y : byte) :
  let n0 := byte_to_Z x / 16 in
  let n1 := byte_to_Z x mod 16 in
  let n2 := byte_to_Z y / 16 in
  let n3 := byte_to_Z y mod 16 in
  let v := 1000 * n0 + 100 * n1 + 10 * n2 + n3 in
  Decode MLI2BCD2 [a0; a1; x; y] =
  if forallb (fun n => n <=? 9) [n0; n1; n2; n3] then
    if v =? 0 then Done (0, None)
    else if v <? 4 then Done (0, Some ErrLength)
    else Done (v - 4, None)
  else
    Done (0, Some (ErrDecodeHex
                     (strconv.syntaxError "Atoi" (hex.EncodeToString [x; y])))).
Proof.
  intros n0 n1 n2 n3 v.
  rewrite Decode_2BCD2.
  change (negb (len [a0; a1; x; y] =? Size2BCD2)) with false. cbv iota.
  change (slice [a0; a1; x; y] 2 4) with (Done [x; y]). unfold bind.
  change (hex.EncodeToString [x; y])
    with [hex.hexchar hex.hextable (Z.shiftr (byte_to_Z x) 4);
          hex.hexchar hex.hextable (Z.land (byte_to_Z x) 15);
          hex.hexchar hex.hextable (Z.shiftr (byte_to_Z y) 4);
          hex.hexchar hex.hextable (Z.land (byte_to_Z y) 15)].
  destruct (nibbles x) as (-> & -> & Hx0 & Hx1).
  destruct (nibbles y) as (-> & -> & Hy0 & Hy1).
  fold n0 n1 n2 n3 in Hx0, Hx1, Hy0, Hy1 |- *.
  destruct (hextable_nibble n0 Hx0) as (D0 & S0 & V0).
  destruct (hextable_nibble n1 Hx1) as (D1 & _ & V1).
  destruct (hextable_nibble n2 Hy0) as (D2 & _ & V2).
  destruct (hextable_nibble n3 Hy1) as (D3 & _ & V3).
  rewrite (Atoi_4_unsigned _ _ _ _ S0).
  unfold forallb at 1. rewrite D0, D1, D2, D3. unfold forallb.
  destruct (Z.leb_spec n0 9); [|reflexivity].
  destruct (Z.leb_spec n1 9); [|reflexivity].
  destruct (Z.leb_spec n2 9); [|reflexivity].
  destruct (Z.leb_spec n3 9); [|reflexivity].
  cbv [andb].
  assert (Ev : decimal_value
                 [hex.hexchar hex.hextable n0; hex.hexchar hex.hextable n1;
                  hex.hexchar hex.hextable n2; hex.hexchar hex.hextable n3] = v).
  { unfold decimal_value. simpl fold_left.
    rewrite V0, V1, V2, V3 by assumption. unfold v. lia. }
  rewrite Ev.
  assert (Hv : 0 <= v <= 9999) by (unfold v; lia).
  destruct (Z.eqb_spec v 0); [reflexivity|].
  unfold int_sub, Size2BCD2.
  rewrite int_wrap_small by (unfold min_int, max_int; lia).
  destruct (Z.ltb_spec (v - 4) 0); destruct (Z.ltb_spec v 4); try lia; reflexivity.
Qed.

(** [Decode] of a 2BCD2 buffer of four bytes reads the four nibbles of
    its last two bytes as decimal digits.  A nibble above 9 is the syntax
    error of [Atoi]; otherwise the digits denote [v], and the result is 0
    when [v] is 0, [ErrLength] when [v] is 1, 2 or 3, and [v - 4]
    otherwise. *)
Theorem Decode_2BCD2_value (a0 a1 x y : byte) :
  let n0 := byte_to_Z x / 16 in
  let n1 := byte_to_Z x mod 16 in
  let n2 := byte_to_Z y / 16 in
  let n3 := byte_to_Z y mod 16 in
  let v := 1000 * n0 + 100 * n1 + 10 * n2 + n3 in
  Decode MLI2BCD2 [a0; a1; x; y] =
  if forallb (fun n => n <=? 9) [n0; n1; n2; n3] then
    if v =? 0 then Done (0, None)
    else if v <? 4 then Done (0, Some ErrLength)
    else Done (v - 4, None)
  else
    Done (0, Some (ErrDecodeHex
                     (strconv.syntaxError "Atoi" (hex.EncodeToString [x; y])))).
Proof. intros; eapply Decode_2BCD2_eq; eassumption. Qed.

(** ** Decoding A4E with a sign *)

Lemma is_sign_inv (c : byte) :
  strconv.is_sign c = true -> c = "-"%byte \/ c = "+"%byte.
Proof.
  unfold strconv.is_sign. intros H. apply orb_prop in H.
  destruct H as [H|H]; apply Byte.byte_dec_bl in H; auto.
Qed.

Lemma Decode_A4E_signed_eq (c b1 b2 b3 : byte) :
  strconv.is_sign c = true ->
  Decode MLIA4E [c; b1; b2; b3] =
  if forallb is_digit [b1; b2; b3] then
    Done (if Byte.eqb c "-"%byte then - decimal_value [b1; b2; b3]
          else decimal_value [b1; b2; b3], None)
  else
    Done (0, Some (ErrDecodeString
                     (strconv.syntaxError "Atoi" [c; b1; b2; b3]))).
Proof.
  intros Hs. destruct (is_sign_inv c Hs) as [-> | ->];
    rewrite Decode_A4E;
    match goal with
    | |- context [negb (len ?l =? SizeA4E)] =>
        change (negb (len l =? SizeA4E)) with false; cbv iota;
        change (len l) with 4
    end;
    rewrite count_zero_4;
    match goal with
    | |- context [forallb (Byte.eqb "0"%byte) ?l] =>
        change (forallb (Byte.eqb "0"%byte) l) with false; cbv iota
    end;
    unfold unsafeByteToStr, strconv.Atoi;
    match goal with
    | |- context [(Nat.ltb 0 (List.length ?l) && Nat.ltb (List.length ?l) 19)%bool] =>
        change (Nat.ltb 0 (List.length l) && Nat.ltb (List.length l) 19)%bool
          with true; cbv iota
    end.
  - change (strconv.is_sign "-"%byte) with true. cbv iota.
    rewrite atoi_loop_spec.
    destruct (forallb is_digit [b1; b2; b3]); reflexivity.
  - change (strconv.is_sign "+"%byte) with true. cbv iota.
    rewrite atoi_loop_spec.
    destruct (forallb is_digit [b1; b2; b3]); reflexivity.
Qed.

(** [Decode] of four A4E bytes the first of which is '+' or '-': when
    the three bytes after the sign are decimal digits, the number they
    denote, negated after '-', and no error; the syntax error of [Atoi]
    otherwise. *)
Theorem Decode_A4E_signed (c b1 b2 b3 : byte) :
  strconv.is_sign c = true ->
  Decode MLIA4E [c; b1; b2; b3] =
  if forallb is_digit [b1; b2; b3] then
    Done (if Byte.eqb c "-"%byte then - decimal_value [b1; b2; b3]
          else decimal_value [b1; b2; b3], None)
  else
    Done (0, Some (ErrDecodeString
                     (strconv.syntaxError "Atoi" [c; b1; b2; b3]))).
Proof. intros; eapply Decode_A4E_signed_eq; eassumption. Qed.

Lemma Decode_A4E_signed_witness :
  strconv.is_sign "-"%byte = true
  /\ Decode MLIA4E ["-"%byte; "0"%byte; "4"%byte; "3"%byte] = Done (-43, None).
Proof.
  assert (Hs : strconv.is_sign "-"%byte = true) by reflexivity.
  split; [exact Hs|].
  exact (Decode_A4E_signed "-"%byte "0"%byte "4"%byte "3"%byte Hs).
Defined.

(** ** The range of a decoded length *)

Lemma is_digit_value (c : byte) :
  is_digit c = true -> 0 <= byte_to_Z c - 48 <= 9.
Proof.
  unfold is_digit. intros H. apply andb_prop in H. destruct H as [Hl Hu].
  apply Z.leb_le in Hl, Hu. lia.
Qed.

Ltac digit_bounds :=
  repeat match goal with
         | H : forallb is_digit (_ :: _) = true |- _ =>
             cbn [forallb] in H; apply andb_prop in H; destruct H
         | H : _ && _ = true |- _ => apply andb_prop in H; destruct H
         | H : is_digit _ = true |- _ => apply is_digit_value in H
         end.

(** A length [Decode] returns for A4E with no error lies between -999 and
    9999, and it is negative only when the buffer begins with '-'. *)
Theorem Decode_A4E_range (b : list byte) (n : Z) :
  Decode MLIA4E b = Done (n, None) ->
  -999 <= n <= 9999 /\ (n < 0 -> hd x00 b = "-"%byte).
Proof.
  intros H.
  assert (Hl : len b = width MLIA4E)
    by (apply (Decode_checks_size MLIA4E b n); [simpl; auto 8 | exact H]).
  change (width MLIA4E) with 4 in Hl.
  destruct (len_4_inv b Hl) as (b0 & b1 & b2 & b3 & ->).
  destruct (strconv.is_sign b0) eqn:Hs.
  - rewrite (Decode_A4E_signed_eq _ _ _ _ Hs) in H.
    destruct (forallb is_digit [b1; b2; b3]) eqn:Hd; [|discriminate H].
    injection H as <-.
    assert (Hv : 0 <= decimal_value [b1; b2; b3] <= 999).
    { digit_bounds. unfold decimal_value. simpl fold_left. lia. }
    destruct (Byte.eqb b0 "-"%byte) eqn:Hm.
    + apply Byte.byte_dec_bl in Hm. simpl. split; [lia | auto].
    + split; lia.
  - rewrite (Decode_A4E_unsigned [b0; b1; b2; b3] Hl Hs) in H.
    destruct (forallb is_digit [b0; b1; b2; b3]) eqn:Hd; [|discriminate H].
    injection H as <-.
    assert (Hv : 0 <= decimal_value [b0; b1; b2; b3] <= 9999).
    { digit_bounds. unfold decimal_value. simpl fold_left. lia. }
    split; lia.
Qed.

Lemma Decode_A4E_range_witness :
  Decode MLIA4E ["-"%byte; "9"%byte; "9"%byte; "9"%byte] = Done (-999, None)
  /\ -999 <= -999 <= 9999
  /\ (-999 < 0 -> hd x00 ["-"%byte; "9"%byte; "9"%byte; "9"%byte] = "-"%byte).
Proof.
  assert (H : Decode MLIA4E ["-"%byte; "9"%byte; "9"%byte; "9"%byte]
              = Done (-999, None)) by reflexivity.
  split; [exact H|].
  exact (Decode_A4E_range ["-"%byte; "9"%byte; "9"%byte; "9"%byte] (-999) H).
Defined.

Lemma big_endian_2_range (b0 b1 : byte) : 0 <= big_endian [b0; b1] < 65536.
Proof.
  rewrite big_endian_2.
  pose proof (byte_to_Z_range b0). pose proof (byte_to_Z_range b1). lia.
Qed.

Lemma big_endian_4_range (b0 b1 b2 b3 : byte) :
  0 <= big_endian [b0; b1; b2; b3] < 4294967296.
Proof.
  rewrite big_endian_4.
  pose proof (byte_to_Z_range b0). pose proof (byte_to_Z_range b1).
  pose proof (byte_to_Z_range b2). pose proof (byte_to_Z_range b3). lia.
Qed.

Ltac eval_representable :=
  unfold representable, written, capacity, width; eval_keys;
  unfold Size2I, Size2E, Size4I, Size4E, Size2EE, Size2BCD2;
  try change (2 ^ (8 * 2)) with 65536;
  try change (2 ^ (8 * 4)) with 4294967296.

(** For the six selectors other than A4E, a length [Decode] returns with
    no error is in the representable range of the variant: [Encode]
    accepts it and the round trip of C1 applies to it. *)
Theorem Decode_in_range (key : string) (b : list byte) (n : Z) :
  In key selectors -> key <> MLIA4E ->
  Decode key b = Done (n, None) -> representable key n.
Proof.
  intros Hk Hne H.
  pose proof (Decode_checks_size key b n Hk H) as Hl.
  unfold selectors in Hk. each_selector Hk; try contradiction.
  - change (width MLI2I) with 2 in *.
    destruct (len_2_inv b Hl) as (b0 & b1 & ->).
    rewrite Decode_2I_eq in H.
    pose proof (big_endian_2_range b0 b1).
    destruct (Z.eqb_spec (big_endian [b0; b1]) 0);
      [|destruct (Z.ltb_spec (big_endian [b0; b1]) 2)];
      try discriminate H; injection H as <-; eval_representable; lia.
  - rewrite (Decode_exclusive_eq MLI2E b) in H by (simpl; auto).
    change (width MLI2E) with 2 in *.
    destruct (len_2_inv b Hl) as (b0 & b1 & ->).
    pose proof (big_endian_2_range b0 b1).
    injection H as <-; eval_representable; lia.
  - change (width MLI4I) with 4 in *.
    destruct (len_4_inv b Hl) as (b0 & b1 & b2 & b3 & ->).
    rewrite Decode_4I_eq in H.
    pose proof (big_endian_4_range b0 b1 b2 b3).
    destruct (Z.eqb_spec (big_endian [b0; b1; b2; b3]) 0);
      [|destruct (Z.ltb_spec (big_endian [b0; b1; b2; b3]) 4)];
      try discriminate H; injection H as <-; eval_representable; lia.
  - rewrite (Decode_exclusive_eq MLI4E b) in H by (simpl; auto).
    change (width MLI4E) with 4 in *.
    destruct (len_4_inv b Hl) as (b0 & b1 & b2 & b3 & ->).
    pose proof (big_endian_4_range b0 b1 b2 b3).
    injection H as <-; eval_representable; lia.
  - change (width MLI2EE) with 2 in *.
    destruct (Decode_2EE_eq b Hl) as [E Hb]. rewrite E in H.
    injection H as <-; eval_representable; lia.
  - change (width MLI2BCD2) with 4 in *.
    destruct (len_4_inv b Hl) as (b0 & b1 & b2 & b3 & ->).
    rewrite Decode_2BCD2_eq in H. cbv zeta in H.
    destruct (nibbles b2) as (_ & _ & ? & ?).
    destruct (nibbles b3) as (_ & _ & ? & ?).
    destruct (forallb _ _) eqn:Hd; [|discriminate H].
    simpl in Hd.
    repeat (apply andb_prop in Hd; destruct Hd as [?Hd Hd]).
    repeat match goal with Hx : (_ <=? 9) = true |- _ => apply Z.leb_le in Hx end.
    match type of H with
    | (if ?v =? 0 then _ else _) = _ =>
        assert (Hv : 0 <= v <= 9999) by lia;
        remember v as w eqn:Ew; clear Ew;
        destruct (Z.eqb_spec w 0); [|destruct (Z.ltb_spec w 4)]
    end;
      try discriminate H; injection H as <-; eval_representable; lia.
Qed.

Lemma Decode_in_range_witness :
  In MLI2BCD2 selectors /\ MLI2BCD2 <> MLIA4E
  /\ Decode MLI2BCD2 [x00; x00; x02; x88] = Done (284, None)
  /\ representable MLI2BCD2 284.
Proof.
  assert (Hk : In MLI2BCD2 selectors) by (simpl; auto 8).
  assert (Hne : MLI2BCD2 <> MLIA4E) by discriminate.
  assert (H : Decode MLI2BCD2 [x00; x00; x02; x88] = Done (284, None))
    by reflexivity.
  split; [exact Hk|]. split; [exact Hne|]. split; [exact H|].
  exact (Decode_in_range MLI2BCD2 [x00; x00; x02; x88] 284 Hk Hne H).
Defined.

(** ** The text [Encode] writes *)

Lemma decimal_zeros (k : nat) (n : Z) :
  fold_left decimal_step (repeat "0"%byte k) n = n * 10 ^ Z.of_nat k.
Proof.
  revert n. induction k as [|k IH]; intros n.
  - simpl. lia.
  - change (repeat "0"%byte (S k)) with ("0"%byte :: repeat "0"%byte k).
    simpl fold_left. rewrite IH. unfold decimal_step.
    change (byte_to_Z "0"%byte - 48) with 0.
    rewrite Nat2Z.inj_succ, Z.pow_succ_r by lia. lia.
Qed.

Lemma digits_zeros (k : nat) : forallb is_digit (repeat "0"%byte k) = true.
Proof. induction k as [|k IH]; [reflexivity|]. simpl. exact IH. Qed.

(** The number of digits the digit loop writes. *)
Lemma digits_count (u k l : Z) :
  1 <= k -> 10 ^ (k - 1) <= u < 10 ^ k ->
  0 < l -> u < 10 ^ l -> (l = 1 \/ 10 ^ (l - 1) <= u) -> l = k.
Proof.
  intros Hk [Hlo Hhi] Hl Hub Hlb.
  assert (A : k - 1 < l).
  { apply (Z.pow_lt_mono_r_iff 10); lia. }
  assert (B : l - 1 < k).
  { destruct Hlb as [->|Hlb]; [lia|].
    apply (Z.pow_lt_mono_r_iff 10); lia. }
  lia.
Qed.

(** [%04d] of an [int] that is not negative: its decimal digits after
    the zeros that fill four characters. *)
Lemma Sprintf04d_nonneg (v : Z) :
  0 <= v <= max_int ->
  exists ds,
    fmt.Sprintf04d v = repeat "0"%byte (4 - List.length ds) ++ ds
    /\ forallb is_digit ds = true
    /\ decimal_value ds = v
    /\ 0 < len ds
    /\ v < 10 ^ len ds
    /\ (len ds = 1 \/ 10 ^ (len ds - 1) <= v).
Proof.
  intros Hv.
  destruct (Sprintf04d_digits v Hv) as (ds & E & Hd & Hval & Hpos & Hub & Hlb).
  exists ds. conjuncts; try assumption.
  - unfold fmt.Sprintf04d. destruct (Z.ltb_spec v 0); [lia|].
    rewrite E. reflexivity.
  - apply forallb_forall. apply Forall_forall. exact Hd.
Qed.

Lemma Encode_A4E_text (length : Z) :
  0 <= length <= max_int ->
  exists b, Encode MLIA4E length = Done (b, None)
            /\ forallb is_digit b = true
            /\ decimal_value b = length
            /\ 4 <= len b
            /\ (length <= 9999 -> len b = 4).
Proof.
  intros HL. rewrite Encode_A4E by lia.
  destruct (Sprintf04d_nonneg length HL) as (ds & E & Hd & Hv & Hpos & Hub & Hlb).
  rewrite E. eexists. split; [reflexivity|].
  assert (Hlen : len (repeat "0"%byte (4 - List.length ds) ++ ds)
                 = Z.max 4 (len ds)).
  { unfold len. rewrite length_app, repeat_length. lia. }
  conjuncts.
  - rewrite forallb_app, digits_zeros, Hd. reflexivity.
  - rewrite decimal_value_fold, fold_left_app, decimal_zeros.
    rewrite <- decimal_value_fold. exact Hv.
  - rewrite Hlen. lia.
  - intros H9. rewrite Hlen.
    destruct Hlb as [H1|Hlb]; [lia|].
    assert (len ds - 1 < 4).
    { apply (Z.pow_lt_mono_r_iff 10); lia. }
    lia.
Qed.

(** [Encode] with selector A4E never fails on a length that is not
    negative: it returns ASCII decimal digits that denote the length, at
    least four of them, and exactly four up to 9999. *)
Theorem Encode_A4E_digits (length : Z) :
  0 <= length <= max_int ->
  exists b, Encode MLIA4E length = Done (b, None)
            /\ forallb is_digit b = true
            /\ decimal_value b = length
            /\ 4 <= len b
            /\ (length <= 9999 -> len b = 4).
Proof. intros; eapply Encode_A4E_text; eassumption. Qed.

Lemma Encode_A4E_digits_witness :
  0 <= 43 <= max_int
  /\ exists b, Encode MLIA4E 43 = Done (b, None)
               /\ forallb is_digit b = true
               /\ decimal_value b = 43
               /\ 4 <= len b
               /\ (43 <= 9999 -> len b = 4).
Proof.
  assert (H : 0 <= 43 <= max_int) by (unfold max_int; lia).
  split; [exact H | exact (Encode_A4E_digits 43 H)].
Defined.

(** Four decimal digits are the A4E encoding of the number they denote:
    [Encode] undoes [Decode] on them. *)
Theorem Encode_Decode_A4E (b : list byte) :
  len b = 4 -> forallb is_digit b = true ->
  Decode MLIA4E b = Done (decimal_value b, None)
  /\ Encode MLIA4E (decimal_value b) = Done (b, None).
Proof.
  intros Hl Hd.
  destruct (len_4_inv b Hl) as (b0 & b1 & b2 & b3 & ->).
  assert (Hs : strconv.is_sign (hd x00 [b0; b1; b2; b3]) = false).
  { simpl in Hd. apply andb_prop in Hd. destruct Hd as [H0 _].
    apply (digit_not_sign b0 H0). }
  split.
  { rewrite (Decode_A4E_unsigned _ Hl Hs), Hd. reflexivity. }
  pose proof Hd as Hd'. digit_bounds.
  assert (Hv : 0 <= decimal_value [b0; b1; b2; b3] <= 9999).
  { unfold decimal_value. simpl fold_left. lia. }
  destruct (Encode_A4E_text (decimal_value [b0; b1; b2; b3]))
    as (e & E & He & Hval & _ & Hlen).
  { unfold max_int. lia. }
  rewrite E. f_equal. f_equal.
  destruct (len_4_inv e (Hlen ltac:(lia))) as (e0 & e1 & e2 & e3 & ->).
  digit_bounds.
  unfold decimal_value in Hval. simpl fold_left in Hval.
  assert (byte_to_Z e0 = byte_to_Z b0 /\ byte_to_Z e1 = byte_to_Z b1
          /\ byte_to_Z e2 = byte_to_Z b2 /\ byte_to_Z e3 = byte_to_Z b3)
    as (E0 & E1 & E2 & E3) by lia.
  apply byte_to_Z_inj in E0, E1, E2, E3. subst. reflexivity.
Qed.

Lemma Encode_Decode_A4E_witness :
  len (list_byte_of_string "0043") = 4
  /\ forallb is_digit (list_byte_of_string "0043") = true
  /\ Decode MLIA4E (list_byte_of_string "0043")
     = Done (decimal_value (list_byte_of_string "0043"), None)
  /\ Encode MLIA4E (decimal_value (list_byte_of_string "0043"))
     = Done (list_byte_of_string "0043", None).
Proof.
  assert (Hl : len (list_byte_of_string "0043") = 4) by reflexivity.
  assert (Hd : forallb is_digit (list_byte_of_string "0043") = true)
    by reflexivity.
  split; [exact Hl|]. split; [exact Hd|].
  exact (Encode_Decode_A4E (list_byte_of_string "0043") Hl Hd).
Defined.

(** ** Encoding 2BCD2 *)

Lemma digit_hexvalue (p : byte) :
  is_digit p = true ->
  hex.reverseHexTable p = byte_to_Z p - 48
  /\ (15 <? hex.reverseHexTable p) = false.
Proof.
  intros H. pose proof (is_digit_value p H) as Hv.
  unfold hex.reverseHexTable. cbv zeta. unfold is_digit in H. rewrite H.
  split; [reflexivity|]. apply Z.ltb_ge. lia.
Qed.

(** [hex.DecodeString] of decimal digits: a byte for each pair, and the
    length error when a digit is left over. *)
Lemma DecodeString_digits (ds : list byte) :
  forallb is_digit ds = true ->
  exists h,
    hex.DecodeString ds
    = (h, if Z.even (len ds) then None else Some hex.ErrLength)
    /\ len h = len ds / 2.
Proof.
  assert (P : forall l,
             (forallb is_digit l = true ->
              exists h,
                hex.DecodeString l
                = (h, if Z.even (len l) then None else Some hex.ErrLength)
                /\ len h = len l / 2)
             /\ (forall c, forallb is_digit (c :: l) = true ->
                 exists h,
                   hex.DecodeString (c :: l)
                   = (h, if Z.even (len (c :: l)) then None
                         else Some hex.ErrLength)
                   /\ len h = len (c :: l) / 2)).
  { induction l as [|q l [IH0 IH1]].
    - split.
      + intros _. exists []. split; reflexivity.
      + intros c Hc. simpl in Hc. apply andb_prop in Hc. destruct Hc as [Hc _].
        destruct (digit_hexvalue c Hc) as [_ Hlt].
        exists []. simpl. rewrite Hlt. split; reflexivity.
    - split; [exact (IH1 q)|].
      intros p Hp. cbn [forallb] in Hp.
      apply andb_prop in Hp. destruct Hp as [Hp Hq].
      apply andb_prop in Hq. destruct Hq as [Hq Hl].
      destruct (IH0 Hl) as (h & E & Hh).
      destruct (digit_hexvalue p Hp) as [_ Hlp].
      destruct (digit_hexvalue q Hq) as [_ Hlq].
      rewrite DecodeString_pair, Hlp, Hlq, E.
      eexists. split.
      + f_equal.
        replace (len (p :: q :: l)) with (len l + 2)
          by (unfold len; simpl List.length; lia).
        rewrite Z.even_add. change (Z.even 2) with true.
        destruct (Z.even (len l)); reflexivity.
      + replace (len (p :: q :: l)) with (len l + 1 * 2)
          by (unfold len; simpl List.length; lia).
        rewrite Z.div_add by lia. rewrite <- Hh.
        unfold len. simpl List.length. lia. }
  apply P.
Qed.

(** The text [Encode] decodes for 2BCD2 when the adjusted length has [k]
    digits, five or more. *)
Lemma Sprintf04d_large (v k : Z) :
  5 <= k -> 10 ^ (k - 1) <= v < 10 ^ k -> v <= max_int ->
  exists ds, fmt.Sprintf04d v = ds /\ forallb is_digit ds = true /\ len ds = k.
Proof.
  intros Hk Hv Hmax.
  assert (H4 : 10 ^ 4 <= 10 ^ (k - 1)) by (apply Z.pow_le_mono_r; lia).
  change (10 ^ 4) with 10000 in H4.
  destruct (Sprintf04d_nonneg v ltac:(lia)) as (ds & E & Hd & _ & Hpos & Hub & Hlb).
  assert (Hl : len ds = k) by (apply (digits_count v k); try assumption; lia).
  exists ds. conjuncts; try assumption.
  rewrite E. replace (4 - List.length ds)%nat with 0%nat by (unfold len in Hl; lia).
  reflexivity.
Qed.

Lemma Encode_2BCD2_text (length : Z) :
  0 <= length -> length + 4 <= max_int ->
  Encode MLI2BCD2 length =
  match hex.DecodeString (fmt.Sprintf04d (length + 4)) with
  | (_, Some err) => Done (empty, Some (ErrEncodeHex err))
  | (h, None) => Done (make 2 ++ h, None)
  end.
Proof.
  intros H0 Hmax. rewrite Encode_nonneg by exact H0. eval_keys.
  unfold int_add, Size2BCD2.
  rewrite int_wrap_small by (unfold min_int, max_int in *; lia). reflexivity.
Qed.



(** [Encode] with selector 2BCD2 returns no error when the length plus 4
    has an even number [k] of digits, six or more, and a buffer of
    [2 + k / 2] bytes, more than the four of the variant.  The lengths
    from 99996 to 999995 are the first of them. *)
Theorem Encode_2BCD2_even_digits (length k : Z) :
  0 <= length -> length + 4 <= max_int ->
  5 <= k -> Z.even k = true -> 10 ^ (k - 1) <= length + 4 < 10 ^ k ->
  exists b, Encode MLI2BCD2 length = Done (b, None)
            /\ len b = 2 + k / 2 /\ width MLI2BCD2 < len b.
Proof.
  intros H0 Hmax Hk Heven Hv.
  rewrite (Encode_2BCD2_text length H0 Hmax).
  destruct (Sprintf04d_large (length + 4) k Hk Hv Hmax) as (ds & -> & Hd & Hl).
  destruct (DecodeString_digits ds Hd) as (h & E & Hh).
  rewrite E, Hl, Heven. eexists. split; [reflexivity|].
  assert (Hlen : len (make 2 ++ h) = 2 + k / 2).
  { change (make 2) with [x00; x00]. rewrite <- Hl, <- Hh.
    unfold len. simpl List.length. lia. }
  split; [exact Hlen|]. rewrite Hlen. change (width MLI2BCD2) with 4.
  assert (5 / 2 <= k / 2) by (apply Z.div_le_mono; lia).
  assert (k <> 5) by (intros ->; discriminate Heven).
  assert (6 / 2 <= k / 2) by (apply Z.div_le_mono; lia).
  change (6 / 2) with 3 in *. lia.
Qed.

Lemma Encode_2BCD2_even_digits_witness :
  0 <= 99996 /\ 99996 + 4 <= max_int /\ 5 <= 6 /\ Z.even 6 = true
  /\ 10 ^ (6 - 1) <= 99996 + 4 < 10 ^ 6
  /\ exists b, Encode MLI2BCD2 99996 = Done (b, None)
               /\ len b = 2 + 6 / 2 /\ width MLI2BCD2 < len b.
Proof.
  assert (H0 : 0 <= 99996) by lia.
  assert (Hmax : 99996 + 4 <= max_int) by (unfold max_int; lia).
  assert (Hk : 5 <= 6) by lia.
  assert (Heven : Z.even 6 = true) by reflexivity.
  assert (Hv : 10 ^ (6 - 1) <= 99996 + 4 < 10 ^ 6)
    by (split; [apply Z.leb_le | apply Z.ltb_lt]; reflexivity).
  split; [exact H0|]. split; [exact Hmax|]. split; [exact Hk|].
  split; [exact Heven|]. split; [exact Hv|].
  exact (Encode_2BCD2_even_digits 99996 6 H0 Hmax Hk Heven Hv).
Defined.

Lemma Sprintf04d_small (v : Z) :
  0 <= v <= 9999 ->
  exists c0 c1 c2 c3,
    fmt.Sprintf04d v = [c0; c1; c2; c3]
    /\ forallb is_digit [c0; c1; c2; c3] = true
    /\ decimal_value [c0; c1; c2; c3] = v.
Proof.
  intros Hv.
  destruct (Encode_A4E_text v) as (b & E & Hd & Hval & _ & Hlen).
  { unfold max_int. lia. }
  rewrite Encode_A4E in E by lia. injection E as E.
  destruct (len_4_inv b (Hlen ltac:(lia))) as (c0 & c1 & c2 & c3 & ->).
  exists c0, c1, c2, c3. auto.
Qed.

Lemma decimal_digits_4 (d0 d1 d2 d3 v : Z) :
  0 <= d0 <= 9 -> 0 <= d1 <= 9 -> 0 <= d2 <= 9 -> 0 <= d3 <= 9 ->
  1000 * d0 + 100 * d1 + 10 * d2 + d3 = v ->
  v / 1000 = d0 /\ v / 100 mod 10 = d1 /\ v / 10 mod 10 = d2 /\ v mod 10 = d3.
Proof.
  intros H0 H1 H2 H3 <-.
  assert (E0 : (1000 * d0 + 100 * d1 + 10 * d2 + d3) / 1000 = d0).
  { symmetry. apply Z.div_unique with (r := 100 * d1 + 10 * d2 + d3); lia. }
  assert (E1 : (1000 * d0 + 100 * d1 + 10 * d2 + d3) / 100 = 10 * d0 + d1).
  { symmetry. apply Z.div_unique with (r := 10 * d2 + d3); lia. }
  assert (E2 : (1000 * d0 + 100 * d1 + 10 * d2 + d3) / 10
               = 100 * d0 + 10 * d1 + d2).
  { symmetry. apply Z.div_unique with (r := d3); lia. }
  rewrite E0, E1, E2. conjuncts.
  - reflexivity.
  - symmetry. apply Z.mod_unique with (q := d0); lia.
  - symmetry. apply Z.mod_unique with (q := 10 * d0 + d1); lia.
  - symmetry. apply Z.mod_unique with (q := 100 * d0 + 10 * d1 + d2); lia.
Qed.

Lemma Encode_2BCD2_eq (length : Z) :
  0 <= length <= 9995 ->
  let v := length + 4 in
  Encode MLI2BCD2 length =
  Done ([x00; x00;
         byte_of_Z (16 * (v / 1000) + v / 100 mod 10);
         byte_of_Z (16 * (v / 10 mod 10) + v mod 10)], None).
Proof.
  intros HL v.
  rewrite Encode_2BCD2_text by (unfold max_int; lia). fold v.
  destruct (Sprintf04d_small v ltac:(unfold v; lia))
    as (c0 & c1 & c2 & c3 & -> & Hd & Hval).
  pose proof Hd as Hd'. digit_bounds.
  repeat match goal with
         | H : 0 <= byte_to_Z ?c - 48 <= 9 |- _ =>
             lazymatch goal with
             | _ : is_digit c = true |- _ => fail
             | _ => assert (is_digit c = true)
                 by (unfold is_digit; apply andb_true_intro;
                     split; apply Z.leb_le; lia)
             end
         end.
  destruct (digit_hexvalue c0) as [V0 L0]; [assumption|].
  destruct (digit_hexvalue c1) as [V1 L1]; [assumption|].
  destruct (digit_hexvalue c2) as [V2 L2]; [assumption|].
  destruct (digit_hexvalue c3) as [V3 L3]; [assumption|].
  rewrite DecodeString_pair, L0, L1, DecodeString_pair, L2, L3.
  change (hex.DecodeString []) with (@nil byte, @None hex.error).
  cbv beta iota. rewrite V0, V1, V2, V3.
  unfold decimal_value in Hval. simpl fold_left in Hval.
  destruct (decimal_digits_4 (byte_to_Z c0 - 48) (byte_to_Z c1 - 48)
              (byte_to_Z c2 - 48) (byte_to_Z c3 - 48) v)
    as (E0 & E1 & E2 & E3); try assumption; [lia|].
  rewrite E0, E1, E2, E3.
  rewrite !(Z.lor_comm (Z.shiftl _ 4)).
  rewrite (lor_shiftl_add (byte_to_Z c1 - 48) _ 4) by lia.
  rewrite (lor_shiftl_add (byte_to_Z c3 - 48) _ 4) by lia.
  change (2 ^ 4) with 16. change (make 2) with [x00; x00].
  replace (byte_to_Z c1 - 48 + (byte_to_Z c0 - 48) * 16)
    with (16 * (byte_to_Z c0 - 48) + (byte_to_Z c1 - 48)) by lia.
  replace (byte_to_Z c3 - 48 + (byte_to_Z c2 - 48) * 16)
    with (16 * (byte_to_Z c2 - 48) + (byte_to_Z c3 - 48)) by lia.
  reflexivity.
Qed.

(** [Encode] with selector 2BCD2 in range: two zero bytes, then the four
    decimal digits of the length plus 4, one to a nibble. *)
Theorem Encode_2BCD2_bytes (length : Z) :
  0 <= length <= 9995 ->
  let v := length + 4 in
  Encode MLI2BCD2 length =
  Done ([x00; x00;
         byte_of_Z (16 * (v / 1000) + v / 100 mod 10);
         byte_of_Z (16 * (v / 10 mod 10) + v mod 10)], None).
Proof. intros; eapply Encode_2BCD2_eq; eassumption. Qed.

Lemma Encode_2BCD2_bytes_witness :
  0 <= 284 <= 9995
  /\ Encode MLI2BCD2 284 = Done ([x00; x00; x02; x88], None).
Proof.
  assert (H : 0 <= 284 <= 9995) by lia.
  split; [exact H | exact (Encode_2BCD2_bytes 284 H)].
Defined.

(** A 2BCD2 buffer whose last two bytes hold four decimal digits that
    denote 4 or more decodes to a length whose encoding is the buffer
    with its first two bytes set to zero. *)
Theorem Encode_Decode_2BCD2 (a0 a1 x y : byte) :
  let n0 := byte_to_Z x / 16 in
  let n1 := byte_to_Z x mod 16 in
  let n2 := byte_to_Z y / 16 in
  let n3 := byte_to_Z y mod 16 in
  let v := 1000 * n0 + 100 * n1 + 10 * n2 + n3 in
  forallb (fun n => n <=? 9) [n0; n1; n2; n3] = true -> 4 <= v ->
  Decode MLI2BCD2 [a0; a1; x; y] = Done (v - 4, None)
  /\ Encode MLI2BCD2 (v - 4) = Done ([x00; x00; x; y], None).
Proof.
  intros n0 n1 n2 n3 v Hd Hv.
  pose proof (Decode_2BCD2_eq a0 a1 x y) as HD. cbv zeta in HD.
  fold n0 n1 n2 n3 in HD. fold v in HD. rewrite Hd in HD.
  destruct (Z.eqb_spec v 0); [lia|]. destruct (Z.ltb_spec v 4); [lia|].
  split; [exact HD|].
  destruct (nibbles x) as (_ & _ & Hx0 & Hx1).
  destruct (nibbles y) as (_ & _ & Hy0 & Hy1).
  fold n0 n1 in Hx0, Hx1. fold n2 n3 in Hy0, Hy1.
  cbn [forallb] in Hd.
  repeat match goal with
         | H : _ && _ = true |- _ => apply andb_prop in H; destruct H
         | H : (_ <=? 9) = true |- _ => apply Z.leb_le in H
         end.
  assert (Hr : 0 <= v - 4 <= 9995) by (unfold v; lia).
  pose proof (Encode_2BCD2_eq (v - 4) Hr) as HE. cbv zeta in HE.
  replace (v - 4 + 4) with v in HE by lia.
  destruct (decimal_digits_4 n0 n1 n2 n3 v) as (E0 & E1 & E2 & E3);
    try lia; try reflexivity.
  rewrite E0, E1, E2, E3 in HE. rewrite HE.
  pose proof (byte_to_Z_range x). pose proof (byte_to_Z_range y).
  pose proof (Z.div_mod (byte_to_Z x) 16 ltac:(lia)).
  pose proof (Z.div_mod (byte_to_Z y) 16 ltac:(lia)).
  assert (Ex : byte_of_Z (16 * n0 + n1) = x).
  { apply byte_to_Z_inj. rewrite byte_to_of_Z.
    unfold n0, n1. rewrite Z.mod_small; lia. }
  assert (Ey : byte_of_Z (16 * n2 + n3) = y).
  { apply byte_to_Z_inj. rewrite byte_to_of_Z.
    unfold n2, n3. rewrite Z.mod_small; lia. }
  rewrite Ex, Ey. reflexivity.
Qed.

Lemma Encode_Decode_2BCD2_witness :
  forallb (fun n => n <=? 9)
    [byte_to_Z x02 / 16; byte_to_Z x02 mod 16;
     byte_to_Z x88 / 16; byte_to_Z x88 mod 16] = true
  /\ 4 <= 288
  /\ Decode MLI2BCD2 [xff; xab; x02; x88] = Done (284, None)
  /\ Encode MLI2BCD2 284 = Done ([x00; x00; x02; x88], None).
Proof.
  assert (Hd : forallb (fun n => n <=? 9)
                 [byte_to_Z x02 / 16; byte_to_Z x02 mod 16;
                  byte_to_Z x88 / 16; byte_to_Z x88 mod 16] = true)
    by reflexivity.
  assert (Hv : 4 <= 1000 * (byte_to_Z x02 / 16) + 100 * (byte_to_Z x02 mod 16)
                    + 10 * (byte_to_Z x88 / 16) + byte_to_Z x88 mod 16)
    by (apply Z.leb_le; reflexivity).
  split; [exact Hd|]. split; [lia|].
  exact (Encode_Decode_2BCD2 xff xab x02 x88 Hd Hv).
Defined.

(** ** Decoding A4E without a sign *)

(** [Decode] of four A4E bytes the first of which is neither '+' nor '-':
    when all four are decimal digits, the number they denote and no error;
    the syntax error of [Atoi] otherwise. *)
Theorem Decode_A4E_plain (b : list byte) :
  len b = 4 -> strconv.is_sign (hd x00 b) = false ->
  Decode MLIA4E b =
  if forallb is_digit b then Done (decimal_value b, None)
  else Done (0, Some (ErrDecodeString (strconv.syntaxError "Atoi" b))).
Proof. intros; eapply Decode_A4E_unsigned; eassumption. Qed.

Lemma Decode_A4E_plain_witness :
  len (list_byte_of_string "12a4") = 4
  /\ strconv.is_sign (hd x00 (list_byte_of_string "12a4")) = false
  /\ Decode MLIA4E (list_byte_of_string "12a4")
     = Done (0, Some (ErrDecodeString
                        (strconv.syntaxError "Atoi" (list_byte_of_string "12a4")))).
Proof.
  assert (Hl : len (list_byte_of_string "12a4") = 4) by reflexivity.
  assert (Hs : strconv.is_sign (hd x00 (list_byte_of_string "12a4")) = false)
    by reflexivity.
  split; [exact Hl|]. split; [exact Hs|].
  exact (Decode_A4E_plain (list_byte_of_string "12a4") Hl Hs).
Defined.

(** ** Distinct lengths, distinct buffers *)

(** Two lengths in the representable range of a variant that [Encode]
    writes alike are the same length. *)
Theorem Encode_injective (key : string) (l1 l2 : Z) :
  In key selectors -> representable key l1 -> representable key l2 ->
  Encode key l1 = Encode key l2 -> l1 = l2.
Proof.
  intros Hk H1 H2 E.
  destruct (Encode_Decode key l1 Hk H1) as (b1 & E1 & _ & D1).
  destruct (Encode_Decode key l2 Hk H2) as (b2 & E2 & _ & D2).
  rewrite E, E2 in E1. injection E1 as <-.
  rewrite D1 in D2. injection D2 as ->. reflexivity.
Qed.

Lemma Encode_injective_witness :
  In MLI2I selectors /\ representable MLI2I 43 /\ representable MLI2I 43
  /\ Encode MLI2I 43 = Encode MLI2I 43 /\ 43 = 43.
Proof.
  assert (Hk : In MLI2I selectors) by (simpl; auto).
  assert (Hr : representable MLI2I 43) by (vm_compute; intuition discriminate).
  assert (E : Encode MLI2I 43 = Encode MLI2I 43) by reflexivity.
  split; [exact Hk|]. split; [exact Hr|]. split; [exact Hr|]. split; [exact E|].
  exact (Encode_injective MLI2I 43 43 Hk Hr Hr E).
Defined.

(** ** No panic in [Decode] *)

(** [Decode] indexes a buffer only after the size test of its branch, so
    it returns, with a length or an error, for every key and every
    buffer, the empty one and the short ones included: no index is ever
    out of range. *)
Theorem Decode_never_panics (key : string) (b : list byte) :
  Decode key b <> Panic.
Proof.
  destruct (Decode_returns key b) as [r E]. rewrite E. discriminate.
Qed.

(** ** A4E lengths that do not fit four digits *)

(** C7 fails in the code. [Encode] with selector A4E has no test of the
    range: for a length of 10000 or more, of [k] decimal digits, it returns
    no error and those [k] digits, nothing before them, a buffer longer
    than the [SizeA4E] bytes of the variant, which [Decode] with the same
    selector answers with [ErrByteSize]. *)
Theorem Encode_A4E_overlong (length k : Z) :
  10000 <= length <= max_int -> 10 ^ (k - 1) <= length < 10 ^ k ->
  exists b, Encode MLIA4E length = Done (b, None)
            /\ len b = k
            /\ SizeA4E < len b
            /\ forallb is_digit b = true
            /\ decimal_value b = length
            /\ Decode MLIA4E b = Done (0, Some ErrByteSize).
Proof.
  intros [Hlo Hhi] Hk.
  assert (H5 : 5 <= k).
  { destruct (Z.lt_ge_cases k 5) as [Hlt|]; [exfalso | assumption].
    destruct (Z.lt_ge_cases k 0) as [Hneg|Hpos].
    - rewrite (Z.pow_neg_r 10 k Hneg) in Hk. lia.
    - assert (10 ^ k <= 10 ^ 4) by (apply Z.pow_le_mono_r; lia).
      change (10 ^ 4) with 10000 in *. lia. }
  rewrite Encode_A4E by lia.
  destruct (Sprintf04d_nonneg length ltac:(lia))
    as (ds & E & Hd & Hv & Hpos & Hub & Hlb).
  assert (Hl : len ds = k) by (apply (digits_count length k); try assumption; lia).
  assert (Hs : fmt.Sprintf04d length = ds).
  { rewrite E.
    replace (4 - List.length ds)%nat with 0%nat by (unfold len in Hl; lia).
    reflexivity. }
  rewrite Hs. exists ds.
  assert (Hw : SizeA4E < len ds) by (unfold SizeA4E; lia).
  conjuncts; try assumption; [reflexivity|].
  rewrite Decode_A4E.
  destruct (Z.eqb_spec (len ds) SizeA4E); [lia | reflexivity].
Qed.

Lemma Encode_A4E_overlong_witness :
  10000 <= 10000 <= max_int /\ 10 ^ (5 - 1) <= 10000 < 10 ^ 5
  /\ exists b, Encode MLIA4E 10000 = Done (b, None)
               /\ len b = 5
               /\ SizeA4E < len b
               /\ forallb is_digit b = true
               /\ decimal_value b = 10000
               /\ Decode MLIA4E b = Done (0, Some ErrByteSize).
Proof.
  assert (H : 10000 <= 10000 <= max_int) by (unfold max_int; lia).
  assert (Hk : 10 ^ (5 - 1) <= 10000 < 10 ^ 5)
    by (split; [apply Z.leb_le | apply Z.ltb_lt]; reflexivity).
  split; [exact H|]. split; [exact Hk|].
  exact (Encode_A4E_overlong 10000 5 H Hk).
Defined.
